(** * Köppen climate classification from monthly normals

    A shallow embedding of [climate_classifier.py]
    ([calculate_koppen_climate_from_normals]) and of the completeness guard
    of [meteostat_functions.update_markers], followed by the properties
    stated about them.

    Numbers.  The program computes on IEEE doubles held in pandas columns.
    Here a cell is an exact rational or the missing value: [float] is
    [option Q] with [None] for NaN.  Rounding and infinities are outside the
    model; everything the decision procedure does with NaN (reductions skip
    it, every comparison with it is false, arithmetic propagates it) is
    kept.

    The second half covers the code around the classifier: the colour
    table and the station loop of [update_markers], [get_monthly_as_normal],
    [get_latest_normal_by_station_id], [get_latest_normal] and
    [calculate_koppen_climate], [make_climate_data_frame_readable], the
    session dictionaries of [main], and [calculate_rain_hours].  What these
    fetch from the data source is a parameter of the model. *)

From Stdlib Require Import ZArith QArith Qminmax List String Ascii Bool Lia Lqa.
From stdpp Require gmap.
Import ListNotations.

Local Open Scope Q_scope.

(** ** Cells: a rational or NaN *)

Definition float : Type := option Q.

Definition NaN : float := None.

Definition of_Q (q : Q) : float := Some q.

Definition of_int (z : Z) : float := Some (inject_Z z).

Definition isna (a : float) : bool :=
  match a with Some _ => false | None => true end.

Definition Qltb (x y : Q) : bool :=
  match x ?= y with Lt => true | _ => false end.

Definition lift2 (f : Q -> Q -> Q) (a b : float) : float :=
  match a, b with
  | Some x, Some y => Some (f x y)
  | _, _ => NaN
  end.

Definition cmp2 (f : Q -> Q -> bool) (a b : float) : bool :=
  match a, b with
  | Some x, Some y => f x y
  | _, _ => false
  end.

Definition fadd : float -> float -> float := lift2 Qplus.
Definition fsub : float -> float -> float := lift2 Qminus.
Definition fmul : float -> float -> float := lift2 Qmult.
Definition fdiv : float -> float -> float := lift2 Qdiv.

(** [a < b], [a >= b] and [a <= b], [a > b] of Python on floats. *)
Definition flt : float -> float -> bool := cmp2 Qltb.
Definition fge : float -> float -> bool := cmp2 (fun x y => Qle_bool y x).
Definition fle : float -> float -> bool := cmp2 Qle_bool.
Definition fgt : float -> float -> bool := cmp2 (fun x y => Qltb y x).

(** ** Data frames of monthly normals

    One row per index entry; the index holds the month number.  The columns
    are those of a Meteostat normals frame that the repository reads or
    shows. *)

Record row : Type := mkrow {
  index : Z;
  tavg : float;
  tmin : float;
  tmax : float;
  prcp : float;
  tsun : float
}.

Definition DataFrame : Type := list row.

(** [data[col]]: a column as a series of cells. *)
Definition getcol (col : row -> float) (data : DataFrame) : list float :=
  map col data.

(** [x in months], the test behind [data.index.isin(months)]. *)
Definition isin (x : Z) (months : list Z) : bool :=
  existsb (Z.eqb x) months.

(** [data[data.index.isin(months)]]: the rows whose index is in [months],
    in their order. *)
Definition select_isin (data : DataFrame) (months : list Z) : DataFrame :=
  filter (fun r => isin (index r) months) data.

(** ** pandas reductions (skipna=True) *)

Fixpoint dropna (s : list float) : list Q :=
  match s with
  | [] => []
  | Some x :: t => x :: dropna t
  | None :: t => dropna t
  end.

Definition Qsum (l : list Q) : Q := fold_right Qplus 0 l.

(** [s.sum()]: 0 on an empty or all-NaN series. *)
Definition series_sum (s : list float) : float := Some (Qsum (dropna s)).

(** [s.min()] and [s.max()]: NaN when nothing is left. *)
Definition series_min (s : list float) : float :=
  match dropna s with
  | [] => NaN
  | x :: t => Some (fold_left Qmin t x)
  end.

Definition series_max (s : list float) : float :=
  match dropna s with
  | [] => NaN
  | x :: t => Some (fold_left Qmax t x)
  end.

(** [s.mean()]: sum over count of the cells present. *)
Definition series_mean (s : list float) : float :=
  match dropna s with
  | [] => NaN
  | l => Some (Qsum l / inject_Z (Z.of_nat (List.length l)))
  end.

(** [s.gt(c)]: the boolean mask, false at NaN; [mask.sum()] counts it. *)
Definition series_gt (s : list float) (c : float) : list bool :=
  map (fun v => fgt v c) s.

Definition mask_sum (m : list bool) : Z :=
  Z.of_nat (List.length (filter (fun b => b) m)).

(** ** The classifier: [calculate_koppen_climate_from_normals] *)

Record Series : Type := mkSeries {
  Koppen_climate_classification : string;
  Min_Monthly_Temp : float;
  Avg_Monthly_Temp : float;
  Max_Monthly_Temp : float;
  Precipitation_Threshold : float;
  Yearly_Precipitation : float
}.

Definition northern_summer_months : list Z := [4; 5; 6; 7; 8; 9]%Z.
Definition northern_winter_months : list Z := [1; 2; 3; 10; 11; 12]%Z.

Definition isotherm_default : Z := 0%Z.

Section Classifier.

Variable data : DataFrame.
Variable isotherm : Z.

Definition min_monthly_temp : float := series_min (getcol tavg data).
Definition avg_monthly_temp : float := series_mean (getcol tavg data).
Definition max_monthly_temp : float := series_max (getcol tavg data).
Definition yearly_prcp : float := series_sum (getcol prcp data).

Definition northern_summer_mean : float :=
  series_mean (getcol tavg (select_isin data northern_summer_months)).
Definition northern_winter_mean : float :=
  series_mean (getcol tavg (select_isin data northern_winter_months)).

(** The pair [summer_months, winter_months]. *)
Definition season_months : list Z * list Z :=
  if fge northern_summer_mean northern_winter_mean
  then (northern_summer_months, northern_winter_months)
  else (northern_winter_months, northern_summer_months).

Definition summer_months : list Z := fst season_months.
Definition winter_months : list Z := snd season_months.

Definition summer_data : DataFrame := select_isin data summer_months.
Definition winter_data : DataFrame := select_isin data winter_months.

Definition summer_prcp : float := series_sum (getcol prcp summer_data).
Definition winter_prcp : float := series_sum (getcol prcp winter_data).

Definition prcp_threshold : float :=
  let prcp_threshold := fmul (of_int 20) avg_monthly_temp in
  if fge summer_prcp (fmul (of_Q 0.7) yearly_prcp)
  then fadd prcp_threshold (of_int 280)
  else if flt winter_prcp (fmul (of_Q 0.7) yearly_prcp)
  then fadd prcp_threshold (of_int 140)
  else prcp_threshold.

Definition driest_summer_month : float := series_min (getcol prcp summer_data).
Definition wettest_summer_month : float := series_max (getcol prcp summer_data).
Definition driest_winter_month : float := series_min (getcol prcp winter_data).
Definition wettest_winter_month : float := series_max (getcol prcp winter_data).

(** The three labels [(primary_label, secondary_label, tertiary_label)]
    as the if/elif chain leaves them. *)
Definition labels : string * string * string :=
  if flt max_monthly_temp (of_int 10) then
    ("E",
     if fge max_monthly_temp (of_int 0) then "T" else "F",
     "")%string
  else if flt yearly_prcp prcp_threshold then
    ("B",
     if flt yearly_prcp (fdiv prcp_threshold (of_int 2)) then "W" else "S",
     if fge avg_monthly_temp (of_int 18) then "h" else "k")%string
  else if fge min_monthly_temp (of_int 18) then
    let min_monthly_prcp := series_min (getcol prcp data) in
    ("A",
     if fge min_monthly_prcp (of_int 60) then "f"
     else
       let tropical_rain_ratio :=
         fsub (of_int 100) (fmul (of_Q 0.04) yearly_prcp) in
       if fge min_monthly_prcp tropical_rain_ratio then "m" else "w",
     "")%string
  else
    let primary_label :=
      (if fge min_monthly_temp (of_int isotherm) then "C" else "D")%string in
    let secondary_label :=
      (if fge wettest_summer_month (fmul (of_int 10) driest_winter_month)
       then "w"
       else if fge wettest_winter_month (fmul (of_int 3) driest_summer_month)
               && flt driest_summer_month
                    (if String.eqb primary_label "C"
                     then of_int 40 else of_int 30)
       then "s"
       else "f")%string in
    let tertiary_label :=
      (if (4 <=? mask_sum (series_gt (getcol tavg data) (of_int 10)))%Z then
         if fge max_monthly_temp (of_int 22) then "a" else "b"
       else if fle min_monthly_temp (of_int (-38)) then "d"
       else "c")%string in
    (primary_label, secondary_label, tertiary_label).

Definition primary_label : string := fst (fst labels).
Definition secondary_label : string := snd (fst labels).
Definition tertiary_label : string := snd labels.

Definition climate_classification : string :=
  (primary_label ++ secondary_label ++ tertiary_label)%string.

Definition calculate_koppen_climate_from_normals : Series :=
  {| Koppen_climate_classification := climate_classification;
     Min_Monthly_Temp := min_monthly_temp;
     Avg_Monthly_Temp := avg_monthly_temp;
     Max_Monthly_Temp := max_monthly_temp;
     Precipitation_Threshold := prcp_threshold;
     Yearly_Precipitation := yearly_prcp |}.

End Classifier.

(** The function body has no [raise], and every pandas call in it is total
    on a frame that has the columns: a call always returns.  [outcome] is
    what a Python call can do; [Raises] carries the exception class name. *)
Inductive outcome : Type :=
| Returns (s : Series)
| Raises (exception : string).

Definition call_calculate_koppen_climate_from_normals
    (data : DataFrame) (isotherm : Z) : outcome :=
  Returns (calculate_koppen_climate_from_normals data isotherm).

(** ** The caller's guard: [update_markers]

    [not normals[["tavg", "prcp"]].isna().any(axis=1).any()
     and len(normals.index) == 12] *)
Definition has_full_data (normals : DataFrame) : bool :=
  negb (existsb (fun r => isna (tavg r) || isna (prcp r)) normals)
  && (Z.of_nat (List.length normals) =? 12)%Z.

(** The classification step of [update_markers] for one station: the
    [climate_type] added to the popup, or [None] when the guard skips the
    classifier and the marker keeps the fallback colour. *)
Definition update_markers_koppen (normals : DataFrame) : option string :=
  if has_full_data normals then
    Some (Koppen_climate_classification
            (calculate_koppen_climate_from_normals normals isotherm_default))
  else None.

(** ** Valid records

    A valid record has exactly one row per month 1..12 and both the average
    temperature and the precipitation present in every row. *)

Definition months : list Z := [1; 2; 3; 4; 5; 6; 7; 8; 9; 10; 11; 12]%Z.

Definition present (r : row) : bool :=
  negb (isna (tavg r)) && negb (isna (prcp r)).

Definition in_year (r : row) : bool :=
  (1 <=? index r)%Z && (index r <=? 12)%Z.

Definition count_month (data : DataFrame) (m : Z) : nat :=
  List.length (select_isin data [m]).

Definition validb (data : DataFrame) : bool :=
  forallb (fun r => in_year r && present r) data
  && forallb (fun m => Nat.eqb (count_month data m) 1) months.

(** The month counts of a frame, added over the year. *)
Definition sum_counts (data : DataFrame) : nat :=
  fold_right (fun m acc => (count_month data m + acc)%nat) 0%nat months.

(** The index holds distinct month numbers, as the frames of the data
    source do (normals per month; monthly data grouped by month). *)
Fixpoint nodupb (l : list Z) : bool :=
  match l with
  | [] => true
  | x :: t => negb (isin x t) && nodupb t
  end.

Definition month_indexedb (data : DataFrame) : bool :=
  forallb in_year data && nodupb (map index data).

(** The cells present in the two columns the classifier reads. *)
Definition temps (data : DataFrame) : list Q := dropna (getcol tavg data).
Definition precs (data : DataFrame) : list Q := dropna (getcol prcp data).

(** [m] is the least (greatest) element of [l]. *)
Definition is_min (m : Q) (l : list Q) : Prop :=
  In m l /\ Forall (fun x => m <= x) l.

Definition is_max (m : Q) (l : list Q) : Prop :=
  In m l /\ Forall (fun x => x <= m) l.

(** The first and second character of a code. *)
Definition letter (n : nat) (code : string) : option ascii := String.get n code.

(** Records for examples: months 1..12 in order with the given average
    temperatures and precipitations, the other columns missing. *)
Fixpoint record_from (m : Z) (ts ps : list Q) : DataFrame :=
  match ts, ps with
  | t :: ts', p :: ps' =>
      mkrow m (Some t) NaN NaN (Some p) NaN :: record_from (m + 1) ts' ps'
  | _, _ => []
  end.

Definition record_of (ts ps : list Q) : DataFrame := record_from 1 ts ps.

(** ** The store: frames as shared objects

    A pandas frame is a heap object that the caller keeps after the call.
    [data[mask]] builds a new frame; reading a column or reducing it writes
    nothing.  The classifier in store-passing form reads its argument and
    allocates the four selections it makes. *)
Module Store.
Import stdpp.gmap.

Definition loc : Type := positive.
Abbreviation heap := (gmap loc DataFrame).

Definition alloc (h : heap) (frame : DataFrame) : loc * heap :=
  let l := fresh (dom h) in (l, <[l := frame]> h).

(** [data[data.index.isin(months)]] on the object at [l]. *)
Definition getitem_isin (h : heap) (l : loc) (ms : list Z)
    : option (loc * heap) :=
  match h !! l with
  | Some d => Some (alloc h (select_isin d ms))
  | None => None
  end.

Definition calculate_koppen_climate_from_normals_store
    (h : heap) (data : loc) (isotherm : Z) : option (Series * heap) :=
  match h !! data with
  | None => None
  | Some d =>
      match getitem_isin h data northern_summer_months with
      | None => None
      | Some (_, h1) =>
      match getitem_isin h1 data northern_winter_months with
      | None => None
      | Some (_, h2) =>
      match getitem_isin h2 data (summer_months d) with
      | None => None
      | Some (_, h3) =>
      match getitem_isin h3 data (winter_months d) with
      | None => None
      | Some (_, h4) =>
          Some (calculate_koppen_climate_from_normals d isotherm, h4)
      end end end end
  end.
End Store.

(** The month counts of a frame, added over a list of months. *)
Definition season_counts (ms : list Z) (data : DataFrame) : nat :=
  fold_right (fun m acc => (count_month data m + acc)%nat) 0%nat ms.

(** The classifier takes [summer] and [winter] as the rows of the two
    seasons: it is from these that it draws the seasonal precipitation
    sums and the driest and wettest month of each season. *)
Definition seasons_are (data summer winter : DataFrame) : Prop :=
  summer_data data = summer /\ winter_data data = winter
  /\ summer_prcp data = Some (Qsum (precs summer))
  /\ winter_prcp data = Some (Qsum (precs winter))
  /\ (exists ds, driest_summer_month data = Some ds
                 /\ is_min ds (precs summer))
  /\ (exists ws, wettest_summer_month data = Some ws
                 /\ is_max ws (precs summer))
  /\ (exists dw, driest_winter_month data = Some dw
                 /\ is_min dw (precs winter))
  /\ (exists ww, wettest_winter_month data = Some ww
                 /\ is_max ww (precs winter)).

Definition exactly_one (a b c : Prop) : Prop :=
  (a /\ ~ b /\ ~ c) \/ (~ a /\ b /\ ~ c) \/ (~ a /\ ~ b /\ c).

(** ** Example records *)

(** Every month at 25 degrees and 100 mm. *)
Definition all_25_100 : DataFrame := record_of (repeat 25 12) (repeat 100 12).

(** A continental station of the northern hemisphere: coldest month -3. *)
Definition continental_north : DataFrame :=
  record_of [-3; 0; 5; 10; 15; 20; 22; 20; 15; 10; 5; 0]
            [60; 60; 60; 60; 60; 60; 60; 60; 60; 60; 60; 60].

(** A Mediterranean station of the southern hemisphere: warm and dry from
    October to March, cool and wet from April to September. *)
Definition mediterranean_south : DataFrame :=
  record_of [23; 23; 21; 18; 15; 12; 11; 12; 14; 17; 19; 22]
            [10; 12; 20; 45; 90; 110; 100; 80; 50; 30; 15; 10].

(** No precipitation at all. *)
Definition rainless : DataFrame := record_of (repeat 25 12) (repeat 0 12).

(** [all_25_100] without its row for July. *)
Definition missing_july : DataFrame :=
  filter (fun r => negb (index r =? 7)%Z) all_25_100.

(** An ice cap: every month at -10 degrees and 5 mm. *)
Definition ice_cap : DataFrame := record_of (repeat (-10) 12) (repeat 5 12).

(** ** Further example records *)

(** A station of eastern Siberia: three months above 10 degrees, coldest
    month below -38. *)
Definition yakutsk : DataFrame :=
  record_of [-38.6; -33.8; -20.1; -4.8; 7.5; 16.4; 19.5; 15.2; 6.1; -7.8;
             -27; -37.6]
            [9; 8; 7; 8; 20; 35; 39; 38; 30; 20; 16; 10].

(** A dry steppe station: cold winters, little rain. *)
Definition steppe : DataFrame :=
  record_of [-10; -8; 0; 8; 15; 20; 23; 21; 15; 7; -2; -8]
            [10; 10; 15; 25; 40; 50; 45; 35; 25; 15; 10; 10].

(** A monsoon station: warm all year, one nearly dry month. *)
Definition monsoon : DataFrame :=
  record_of [26; 27; 28; 29; 29; 27; 26; 26; 26; 27; 27; 26]
            [5; 20; 40; 80; 200; 900; 1000; 600; 300; 200; 80; 30].

(** ** Codes *)

(** Every code the three labels can spell. *)
Definition koppen_codes : list string :=
  ["ET"; "EF"; "BWh"; "BWk"; "BSh"; "BSk"; "Af"; "Am"; "Aw";
   "Cwa"; "Cwb"; "Cwc"; "Cwd"; "Csa"; "Csb"; "Csc"; "Csd";
   "Cfa"; "Cfb"; "Cfc"; "Cfd";
   "Dwa"; "Dwb"; "Dwc"; "Dwd"; "Dsa"; "Dsb"; "Dsc"; "Dsd";
   "Dfa"; "Dfb"; "Dfc"; "Dfd"]%string.

(** The months of a record with an average temperature above 10, as
    [data["tavg"].gt(10).sum()] counts them. *)
Definition months_above_10 (data : DataFrame) : Z :=
  Z.of_nat (List.length (filter (Qltb 10) (temps data))).

(** The same year seen from the other hemisphere: every row moved by six
    months, in place. *)
Definition shift_month (m : Z) : Z :=
  if (m <=? 6)%Z then (m + 6)%Z else (m - 6)%Z.

Definition shift_row (r : row) : row :=
  mkrow (shift_month (index r)) (tavg r) (tmin r) (tmax r) (prcp r) (tsun r).

Definition six_months_later (data : DataFrame) : DataFrame :=
  map shift_row data.


(** [all_25_100] with every average temperature missing. *)
Definition without_temperatures : DataFrame :=
  map (fun r => mkrow (index r) NaN (tmin r) (tmax r) (prcp r) (tsun r))
      all_25_100.


(** A flat temperature curve (equal half-year means) with the rain in
    April..September. *)
Definition flat_wet_summer : DataFrame :=
  record_of (repeat 15 12) [5; 5; 5; 100; 100; 100; 100; 100; 100; 5; 5; 5].

(** ** Python results and dictionaries *)

Inductive exn : Type :=
| KeyError
| IndexError
| TypeError
| ValueError (message : string).

(** What a call does: it returns a value or raises. *)
Inductive py (A : Type) : Type :=
| Return (a : A)
| Raise (e : exn).

Arguments Return {A} a.
Arguments Raise {A} e.

(** A [dict] keeps its keys in insertion order; assigning to a key that is
    there replaces the value in place. *)
Section Dict.

Variables K V : Type.
Variable eqb : K -> K -> bool.

Fixpoint dict_get (d : list (K * V)) (k : K) : option V :=
  match d with
  | [] => None
  | (k', v) :: t => if eqb k' k then Some v else dict_get t k
  end.

(** [k in d] *)
Definition dict_mem (d : list (K * V)) (k : K) : bool :=
  match dict_get d k with Some _ => true | None => false end.

(** [d[k] = v] *)
Fixpoint dict_set (d : list (K * V)) (k : K) (v : V) : list (K * V) :=
  match d with
  | [] => [(k, v)]
  | (k', v') :: t =>
      if eqb k' k then (k', v) :: t else (k', v') :: dict_set t k v
  end.

(** [d[k]] *)
Definition getitem (d : list (K * V)) (k : K) : py V :=
  match dict_get d k with
  | Some v => Return v
  | None => Raise KeyError
  end.

End Dict.

Arguments dict_get {K V} eqb d k.
Arguments dict_mem {K V} eqb d k.
Arguments dict_set {K V} eqb d k v.
Arguments getitem {K V} eqb d k.

(** ** [KOPPEN_COLOURS] and the markers of [update_markers] *)

(** Keys are codes, and [None] for stations without a classification. *)
Definition KOPPEN_COLOURS : list (option string * string) :=
  [ (Some "Af", "#00FF00"); (Some "Am", "#007F00"); (Some "Aw", "#00AA00");
    (Some "BWh", "#FF0000"); (Some "BWk", "#FF7F7F");
    (Some "BSh", "#FFA500"); (Some "BSk", "#FFD37F");
    (Some "Csa", "#FFEE00"); (Some "Csb", "#D0D000"); (Some "Csc", "#A0A000");
    (Some "Cwa", "#FFFF00"); (Some "Cwb", "#E0E000"); (Some "Cwc", "#C0C000");
    (Some "Cfa", "#B2FF4D"); (Some "Cfb", "#66FF33"); (Some "Cfc", "#33CC00");
    (Some "Dsa", "#4DA6FF"); (Some "Dsb", "#1A75FF"); (Some "Dsc", "#005CE6");
    (Some "Dwa", "#99CCFF"); (Some "Dwb", "#6699FF"); (Some "Dwc", "#3366FF");
    (Some "Dfa", "#00BFFF"); (Some "Dfb", "#0080FF"); (Some "Dfc", "#004C99");
    (Some "ET", "#FFFFFF"); (Some "EF", "#888888");
    (None, "#CCCCCC") ]%string.

Definition colour_key_eqb (a b : option string) : bool :=
  match a, b with
  | Some x, Some y => String.eqb x y
  | None, None => true
  | _, _ => false
  end.

(** Coordinates as dictionary keys: equal when both numbers are. *)
Definition coordinates_eqb (a b : Q * Q) : bool :=
  Qeq_bool (fst a) (fst b) && Qeq_bool (snd a) (snd b).

(** A row of the stations frame; [station_id] is its index label. *)
Record Station : Type := mkStation {
  station_id : string;
  station_name : string;
  wmo : string;
  elevation : float;
  latitude : Q;
  longitude : Q
}.

(** A [folium.Marker]; its icon is fixed but for the background colour. *)
Record Marker : Type := mkMarker {
  location : Q * Q;
  popup : string;
  background_color : string
}.

(** [normals["tsun"] = normals["tsun"] / 60] *)
Definition tsun_to_hours (normals : DataFrame) : DataFrame :=
  map (fun r => mkrow (index r) (tavg r) (tmin r) (tmax r) (prcp r)
                      (fdiv (tsun r) (of_int 60)))
      normals.

Definition newline : string := String "010"%char EmptyString.

(** The two dictionaries [update_markers] fills: markers by station id
    ([None] for a station without data) and normals by coordinates. *)
Definition marker_dict : Type := list (string * option Marker).
Definition data_dict : Type := list ((Q * Q) * DataFrame).

Section UpdateMarkers.

(** What the [try] block yields for a station id: the normals (or the
    monthly data as a normal), [None] when the source has nothing or the
    fetch raised. *)
Variable fetch_normals : string -> option DataFrame.

(** How an f-string renders the elevation. *)
Variable str_float : float -> string.

(** The body of the loop for one station.  The dictionaries are mutated
    in place, so what was written before an exception stays written.  A
    frame of this model has the sunshine column, so the test
    ["tsun" in normals] holds; the result of the classifier is always a
    string, so [isinstance(climate_type, str)] holds too. *)
Definition update_marker
    (marker_array : marker_dict) (data_array : data_dict) (station : Station)
    : marker_dict * data_dict * py unit :=
  if dict_mem String.eqb marker_array (station_id station)
  then (marker_array, data_array, Return tt)
  else
    match fetch_normals (station_id station) with
    | None =>
        (dict_set String.eqb marker_array (station_id station) None,
         data_array, Return tt)
    | Some normals =>
        let popup :=
          ("<b>" ++ station_name station ++ "</b><br>Elevation: "
           ++ str_float (elevation station) ++ "m")%string in
        match getitem colour_key_eqb KOPPEN_COLOURS None with
        | Raise e => (marker_array, data_array, Raise e)
        | Return color =>
            let normals := tsun_to_hours normals in
            let coordinates := (latitude station, longitude station) in
            let data_array :=
              dict_set coordinates_eqb data_array coordinates normals in
            if has_full_data normals then
              let koppen :=
                calculate_koppen_climate_from_normals
                  normals isotherm_default in
              let climate_type := Koppen_climate_classification koppen in
              match getitem colour_key_eqb KOPPEN_COLOURS
                            (Some climate_type) with
              | Raise e => (marker_array, data_array, Raise e)
              | Return color =>
                  (dict_set String.eqb marker_array (station_id station)
                     (Some (mkMarker coordinates
                              (popup ++ newline ++ "Köppen: "
                               ++ climate_type)%string
                              color)),
                   data_array, Return tt)
              end
            else
              (dict_set String.eqb marker_array (station_id station)
                 (Some (mkMarker coordinates popup color)),
               data_array, Return tt)
        end
    end.

(** The loop over the stations that [fetch_stations(bounds)] returned. *)
Fixpoint update_markers
    (marker_array : marker_dict) (data_array : data_dict)
    (stations : list Station) : marker_dict * data_dict * py unit :=
  match stations with
  | [] => (marker_array, data_array, Return tt)
  | station :: rest =>
      match update_marker marker_array data_array station with
      | (marker_array', data_array', Return _) =>
          update_markers marker_array' data_array' rest
      | (marker_array', data_array', Raise e) =>
          (marker_array', data_array', Raise e)
      end
  end.

End UpdateMarkers.


(** The codes that can come out at the default isotherm: with the coldest
    month at 0 or more, a C climate has no very cold winter. *)
Definition koppen_codes_default : list string :=
  ["ET"; "EF"; "BWh"; "BWk"; "BSh"; "BSk"; "Af"; "Am"; "Aw";
   "Cwa"; "Cwb"; "Cwc"; "Csa"; "Csb"; "Csc"; "Cfa"; "Cfb"; "Cfc";
   "Dwa"; "Dwb"; "Dwc"; "Dwd"; "Dsa"; "Dsb"; "Dsc"; "Dsd";
   "Dfa"; "Dfb"; "Dfc"; "Dfd"]%string.


(** ** An example pass *)

Definition example_stations : list Station :=
  [ mkStation "10338" "Hannover" "10338" (Some 55) 52.46 9.68;
    mkStation "XXXXX" "Closed" "" NaN 52.1 10.2;
    mkStation "10348" "Braunschweig" "10348" (Some 81) 52.29 10.45 ]%string.

Definition example_fetch (id : string) : option DataFrame :=
  if String.eqb id "10338" then Some continental_north
  else if String.eqb id "10348" then Some missing_july
  else None.

Definition example_str_float (x : float) : string :=
  match x with
  | Some _ => "55.0"
  | None => "nan"
  end.

Definition yakutsk_station : Station :=
  mkStation "24959" "Jakutsk" "24959" (Some 101) 62.02 129.72.

Definition yakutsk_fetch (id : string) : option DataFrame :=
  if String.eqb id "24959" then Some yakutsk else example_fetch id.


(** ** [get_monthly_as_normal]

    A monthly frame has one row per month of the calendar.  Its index, a
    date, is kept as the number of months since January of year 0, so that
    [monthly.index.month] is [month_of]. *)

Definition month_of (t : Z) : Z := (t mod 12 + 1)%Z.

(** The rows of one group of [monthly.groupby(monthly.index.month)]. *)
Definition group_rows (monthly : DataFrame) (m : Z) : DataFrame :=
  filter (fun r => (month_of (index r) =? m)%Z) monthly.

(** The group keys, in ascending order: the months that occur. *)
Definition group_keys (monthly : DataFrame) : list Z :=
  filter (fun m => existsb (fun r => (month_of (index r) =? m)%Z) monthly)
         months.

(** [.mean()] of one group: column by column, missing cells skipped. *)
Definition group_mean (monthly : DataFrame) (m : Z) : row :=
  let g := group_rows monthly m in
  mkrow m
        (series_mean (getcol tavg g)) (series_mean (getcol tmin g))
        (series_mean (getcol tmax g)) (series_mean (getcol prcp g))
        (series_mean (getcol tsun g)).

Definition groupby_month_mean (monthly : DataFrame) : DataFrame :=
  map (group_mean monthly) (group_keys monthly).

(** [None] is Python's; it is returned for an empty frame. *)
Definition get_monthly_as_normal (monthly : DataFrame) : option DataFrame :=
  match monthly with
  | [] => None
  | _ => Some (groupby_month_mean monthly)
  end.

(** Two years of monthly data from January 2020 (month 24240), the
    temperatures of [continental_north] and 60 mm each month; in the second
    year the temperature of each month is missing. *)
Definition two_years : DataFrame :=
  map (fun r => mkrow (24240 + index r - 1) (tavg r) NaN NaN (prcp r) NaN)
      continental_north
  ++ map (fun r => mkrow (24252 + index r - 1) NaN NaN NaN (Some 30) NaN)
         continental_north.


(** ** [get_latest_normal_by_station_id]

    The frame of [Normals(station_id).fetch()] has a three-level index
    (start year, end year, month).  As in pandas, the index carries its
    levels, the sorted values each level can take, beside the rows. *)

Record NormalsFrame : Type := mkNormals {
  level_start : list Z;
  level_end : list Z;
  period_rows : list (Z * Z * row)
}.

Definition bind {A B : Type} (x : py A) (f : A -> py B) : py B :=
  match x with
  | Return a => f a
  | Raise e => Raise e
  end.

(** [levels[-1]] *)
Definition last_level (levels : list Z) : py Z :=
  match levels with
  | [] => Raise IndexError
  | x :: t => Return (last t x)
  end.

Definition in_period (start_year end_year : Z) (x : Z * Z * row) : bool :=
  (fst (fst x) =? start_year)%Z && (snd (fst x) =? end_year)%Z.

(** [data.loc[(start_year, end_year)]]: the rows of the period, indexed by
    month. *)
Definition loc_period (data : NormalsFrame) (start_year end_year : Z)
    : py DataFrame :=
  match filter (in_period start_year end_year) (period_rows data) with
  | [] => Raise KeyError
  | rows => Return (map snd rows)
  end.

Definition get_latest_normal_by_station_id (data : NormalsFrame)
    : py (option DataFrame) :=
  match period_rows data with
  | [] => Return None
  | _ =>
      bind (last_level (level_start data)) (fun start_year =>
      bind (last_level (level_end data)) (fun end_year =>
      bind (loc_period data start_year end_year) (fun latest =>
      Return (Some latest))))
  end.

(** The invariant of a pandas index: levels sorted without repetition,
    every row labelled by level values. *)
Fixpoint increasingb (l : list Z) : bool :=
  match l with
  | x :: ((y :: _) as t) => (x <? y)%Z && increasingb t
  | _ => true
  end.

Definition multiindexb (data : NormalsFrame) : bool :=
  increasingb (level_start data) && increasingb (level_end data)
  && forallb (fun x => isin (fst (fst x)) (level_start data)
                       && isin (snd (fst x)) (level_end data))
             (period_rows data).

(** No level value is left without rows. *)
Definition levels_usedb (data : NormalsFrame) : bool :=
  forallb (fun s => existsb (fun x => (fst (fst x) =? s)%Z) (period_rows data))
          (level_start data)
  && forallb (fun e => existsb (fun x => (snd (fst x) =? e)%Z)
                               (period_rows data))
             (level_end data).

(** Every period spans [span] years from its first to its last. *)
Definition same_spanb (span : Z) (data : NormalsFrame) : bool :=
  forallb (fun x => (snd (fst x) =? fst (fst x) + span)%Z) (period_rows data).

(** ** [get_latest_normal] and [calculate_koppen_climate] *)

(** What [calculate_koppen_climate] returns: the classifier's result and
    three more entries. *)
Record KoppenReport : Type := mkReport {
  classification : Series;
  Target_Location : string;
  Nearest_Station_ID_WMO : string;
  Nearest_Station_Name : string
}.

Section Nearby.

(** [Normals(station_id).fetch()] *)
Variable fetch_normals_frame : string -> NormalsFrame.

Definition has_normals (station : Station) : bool :=
  match period_rows (fetch_normals_frame (station_id station)) with
  | [] => false
  | _ => true
  end.

(** The [for ... else] loop: the first of the nearby stations, nearest
    first, whose normals are not empty. *)
Fixpoint nearest_with_normals (nearby : list Station) : option Station :=
  match nearby with
  | [] => None
  | station :: rest =>
      if has_normals station then Some station
      else nearest_with_normals rest
  end.

Definition get_latest_normal (nearby : list Station)
    : py (Station * option DataFrame) :=
  match nearest_with_normals nearby with
  | None =>
      Raise (ValueError
               "No nearby stations with available normals data found.")
  | Some station =>
      bind (get_latest_normal_by_station_id
              (fetch_normals_frame (station_id station)))
           (fun data => Return (station, data))
  end.

(** [data["tavg"]] on [None] is a TypeError. *)
Definition calculate_koppen_climate
    (name : string) (nearby : list Station) (isotherm : Z) : py KoppenReport :=
  bind (get_latest_normal nearby) (fun r =>
    match snd r with
    | None => Raise TypeError
    | Some data =>
        Return (mkReport (calculate_koppen_climate_from_normals data isotherm)
                         name (wmo (fst r)) (station_name (fst r)))
    end).

End Nearby.

(** Two periods of normals for one station, the later one without
    temperatures in July. *)
Definition two_periods : NormalsFrame :=
  mkNormals [1961; 1991]%Z [1990; 2020]%Z
    (map (fun r => (1961, 1990, r)%Z) all_25_100
     ++ map (fun r => (1991, 2020, r)%Z) missing_july).

(** Periods of different spans: no row for (1991, 2020). *)
Definition uneven_periods : NormalsFrame :=
  mkNormals [1961; 1991]%Z [2010; 2020]%Z
    (map (fun r => (1961, 2020, r)%Z) all_25_100
     ++ map (fun r => (1991, 2010, r)%Z) all_25_100).

Definition example_normals (id : string) : NormalsFrame :=
  if String.eqb id "10338" then two_periods else mkNormals [] [] [].


(** ** [make_climate_data_frame_readable]

    For a frame whose index is named month, as the normals are, and with
    the five data columns of this model.  Strings hold UTF-8 bytes. *)

Definition VARIABLE_MAP : list (string * string) :=
  [ ("tmax", "Max Temp (°C)"); ("tavg", "Average Temp (°C)");
    ("tmin", "Min Temp (°C)"); ("prcp", "Precip (mm)");
    ("tsun", "Sunshine (hrs)"); ("wspd", "Wind (km/h)");
    ("pres", "Pressure (hPa)") ]%string.

Definition MONTH_MAP : list (Z * string) :=
  [ (1, "Jan"); (2, "Feb"); (3, "Mar"); (4, "Apr"); (5, "May"); (6, "Jun");
    (7, "Jul"); (8, "Aug"); (9, "Sep"); (10, "Oct"); (11, "Nov");
    (12, "Dec") ]%Z%string.

(** The data columns of a frame of this model, by name. *)
Definition frame_columns : list (string * (row -> float)) :=
  [ ("tavg", tavg); ("tmin", tmin); ("tmax", tmax); ("prcp", prcp);
    ("tsun", tsun) ]%string.

Definition nan_row (m : Z) : row := mkrow m NaN NaN NaN NaN NaN.

(** [df.loc[m]] for a unique index. *)
Definition row_of_month (df : DataFrame) (m : Z) : option row :=
  find (fun r => (index r =? m)%Z) df.

(** [df.reindex(range(1, 13))]: one row per month of the year, missing
    where the frame has none; refused when the index repeats a label. *)
Definition reindex_year (df : DataFrame) : py DataFrame :=
  if nodupb (map index df) then
    Return (map (fun m => match row_of_month df m with
                          | Some r => r
                          | None => nan_row m
                          end) months)
  else Raise (ValueError "cannot reindex on an axis with duplicate labels").

(** A row of the transposed frame: a variable, its twelve months, and the
    two columns added at the end. *)
Record ReadableRow : Type := mkReadable {
  variable : string;
  month_cells : list (string * float);
  Average : float;
  Total : float
}.

(** One variable after melt and pivot, renamed; then
    [df["Average"] = df.mean(axis=1)] and, on the frame that now has the
    Average column, [df["Total"] = df.sum(axis=1)]. *)
Definition readable_row (df12 : DataFrame) (display : string)
    (col : row -> float) : ReadableRow :=
  let cells := getcol col df12 in
  let average := series_mean cells in
  let total := series_sum (cells ++ [average]) in
  mkReadable display (combine (map snd MONTH_MAP) cells) average total.

(** The rows are the variables of [VARIABLE_MAP] that the frame has, in
    the order of [VARIABLE_MAP]. *)
Definition make_climate_data_frame_readable (df : DataFrame)
    : py (list ReadableRow) :=
  bind (reindex_year df) (fun df12 =>
    Return
      (flat_map
         (fun entry =>
            match dict_get String.eqb frame_columns (fst entry) with
            | Some col => [readable_row df12 (snd entry) col]
            | None => []
            end)
         VARIABLE_MAP)).

(** ** [calculate_rain_hours] *)

(** A row of an hourly frame: the two columns the function reads. *)
Record HourlyRow : Type := mkHourly {
  hour_prcp : float;
  hour_temp : float
}.

(** The quotient of two numpy numbers: it can be infinite or NaN. *)
Inductive np_float : Type :=
| np_finite (q : Q)
| np_inf
| np_neg_inf
| np_nan.

Definition np_divide (a b : Q) : np_float :=
  if Qeq_bool b 0 then
    match a ?= 0 with
    | Eq => np_nan
    | Gt => np_inf
    | Lt => np_neg_inf
    end
  else np_finite (a / b).

(** [s.notnull().sum()] *)
Definition count_notnull (s : list float) : Z :=
  mask_sum (map (fun v => negb (isna v)) s).

Record RainReport : Type := mkRain {
  Rain_Target_Location : string;
  Rain_Nearest_Station_ID : string;
  Rain_Nearest_Station_Name : string;
  Average_Rain_Hours_Day : np_float;
  Total_Precipitation : float;
  Average_Temperature : float;
  Total_Hours : Z;
  Rain_Hours : Z;
  Number_of_Days : Q
}.

Section RainHours.

(** [Hourly(station_id, start, end).fetch()] for the period asked. *)
Variable fetch_hourly : string -> list HourlyRow.

Fixpoint nearest_with_hourly (nearby : list Station) : option Station :=
  match nearby with
  | [] => None
  | station :: rest =>
      match fetch_hourly (station_id station) with
      | [] => nearest_with_hourly rest
      | _ => Some station
      end
  end.

Definition calculate_rain_hours
    (name : string) (nearby : list Station) (threshold : float)
    : py RainReport :=
  match nearest_with_hourly nearby with
  | None =>
      Raise (ValueError
               "No nearby stations with available hourly data found.")
  | Some station =>
      let data := fetch_hourly (station_id station) in
      let hours := count_notnull (map hour_prcp data) in
      let rain_hours := mask_sum (series_gt (map hour_prcp data) threshold) in
      let num_days := inject_Z hours / 24 in
      let avg_rain_hours_per_day := np_divide (inject_Z rain_hours) num_days in
      Return (mkRain name (station_id station) (station_name station)
                     avg_rain_hours_per_day
                     (series_sum (map hour_prcp data))
                     (series_mean (map hour_temp data))
                     hours rain_hours num_days)
  end.

End RainHours.

Definition example_hourly (id : string) : list HourlyRow :=
  if String.eqb id "10338"
  then [ mkHourly (Some 0) (Some 10); mkHourly (Some 0.5) (Some 11);
         mkHourly NaN (Some 12); mkHourly (Some 2) NaN ]
  else [].


(** ** The session dictionaries of [main] and [render_map] *)

Definition STATIONS_KEY : string := "stations".
Definition CUSTOM_DATE_RANGE_STATIONS_KEY : string :=
  "custom_date_range_stations".

(** What [st.session_state] holds under the keys used here. *)
Inductive session_value : Type :=
| Markers (markers : marker_dict)
| Frames (frames : data_dict).

Definition session : Type := list (string * session_value).

(** [station_key_to_use] and [data_key_to_use]: the data key is built
    before the station key is switched. *)
Definition keys_to_use (use_custom_date_range : bool) : string * string :=
  let station_key_to_use := STATIONS_KEY in
  let data_key_to_use := (station_key_to_use ++ "-data")%string in
  let station_key_to_use :=
    if use_custom_date_range then CUSTOM_DATE_RANGE_STATIONS_KEY
    else station_key_to_use in
  (station_key_to_use, data_key_to_use).

(** "Initialise dictionaries of station markers." *)
Definition initialise_dictionaries
    (session_state : session) (use_custom_date_range : bool) : session :=
  let station_key_to_use := fst (keys_to_use use_custom_date_range) in
  let data_key_to_use := snd (keys_to_use use_custom_date_range) in
  if dict_mem String.eqb session_state station_key_to_use
  then session_state
  else
    dict_set String.eqb
      (dict_set String.eqb session_state station_key_to_use (Markers []))
      data_key_to_use (Frames []).

(** [st.session_state[data_key_to_use][(lat, lng)]] of [render_map], for
    the marker clicked last. *)
Definition clicked_data_frame
    (session_state : session) (use_custom_date_range : bool)
    (clicked : Q * Q) : py DataFrame :=
  match dict_get String.eqb session_state
                 (snd (keys_to_use use_custom_date_range)) with
  | Some (Frames frames) => getitem coordinates_eqb frames clicked
  | Some (Markers _) => Raise KeyError
  | None => Raise KeyError
  end.

(** A session after a first pass without a custom date range. *)
Definition loaded_session : session :=
  [ ("stations"%string,
     Markers (fst (fst (update_markers example_fetch example_str_float [] []
                                       example_stations))));
    ("stations-data"%string,
     Frames (snd (fst (update_markers example_fetch example_str_float [] []
                                      example_stations)))) ].

(** * Properties *)

(** ** Comparisons *)

Lemma Qltb_true (x y : Q) : Qltb x y = true <-> x < y.
Proof.
  unfold Qltb. rewrite Qlt_alt.
  destruct (x ?= y); split; congruence.
Qed.

Lemma Qltb_false (x y : Q) : Qltb x y = false <-> y <= x.
Proof.
  split; intro H.
  - apply Qnot_lt_le. intro L. apply Qltb_true in L. congruence.
  - destruct (Qltb x y) eqn:E; [| reflexivity].
    apply Qltb_true in E. exfalso. exact (Qlt_not_le _ _ E H).
Qed.

Lemma Qle_bool_false (x y : Q) : Qle_bool x y = false <-> y < x.
Proof.
  split; intro H.
  - apply Qnot_le_lt. intro L. apply Qle_bool_iff in L. congruence.
  - destruct (Qle_bool x y) eqn:E; [| reflexivity].
    apply Qle_bool_iff in E. exfalso. exact (Qlt_not_le _ _ H E).
Qed.

(** Turn every boolean comparison of the context and goal into its
    proposition. *)
Ltac qprop :=
  repeat match goal with
  | H : Qltb _ _ = true |- _ => apply Qltb_true in H
  | H : Qltb _ _ = false |- _ => apply Qltb_false in H
  | H : Qle_bool _ _ = true |- _ => apply Qle_bool_iff in H
  | H : Qle_bool _ _ = false |- _ => apply Qle_bool_false in H
  end.

(** ** Reductions *)

Lemma dropna_Some (l : list Q) : dropna (map Some l) = l.
Proof. induction l as [| x l IH]; simpl; congruence. Qed.

Lemma fold_min_is_min (t : list Q) :
  forall x, is_min (fold_left Qmin t x) (x :: t).
Proof.
  induction t as [| a t IH]; intro x; simpl.
  - split; [now left | constructor; [apply Qle_refl | constructor]].
  - destruct (IH (Qmin x a)) as [Hin Hall].
    inversion Hall as [| ? ? Hm Ht]; subst.
    split.
    + destruct Hin as [E | Hin]; [| now right; right].
      rewrite <- E. unfold Qmin, GenericMinMax.gmin.
      destruct (x ?= a); [now left | now left | now right; left].
    + assert (Hx := Q.le_min_l x a). assert (Ha := Q.le_min_r x a).
      constructor; [eapply Qle_trans; eassumption |].
      constructor; [eapply Qle_trans; eassumption | assumption].
Qed.

Lemma fold_max_is_max (t : list Q) :
  forall x, is_max (fold_left Qmax t x) (x :: t).
Proof.
  induction t as [| a t IH]; intro x; simpl.
  - split; [now left | constructor; [apply Qle_refl | constructor]].
  - destruct (IH (Qmax x a)) as [Hin Hall].
    inversion Hall as [| ? ? Hm Ht]; subst.
    split.
    + destruct Hin as [E | Hin]; [| now right; right].
      rewrite <- E. unfold Qmax, GenericMinMax.gmax.
      destruct (x ?= a); [now left | now right; left | now left].
    + assert (Hx := Q.le_max_l x a). assert (Ha := Q.le_max_r x a).
      constructor; [eapply Qle_trans; eassumption |].
      constructor; [eapply Qle_trans; eassumption | assumption].
Qed.

Lemma series_min_is_min (s : list float) :
  dropna s <> [] -> exists m, series_min s = Some m /\ is_min m (dropna s).
Proof.
  unfold series_min. destruct (dropna s) as [| x t]; [congruence |].
  intros _. eexists; split; [reflexivity | apply fold_min_is_min].
Qed.

Lemma series_max_is_max (s : list float) :
  dropna s <> [] -> exists m, series_max s = Some m /\ is_max m (dropna s).
Proof.
  unfold series_max. destruct (dropna s) as [| x t]; [congruence |].
  intros _. eexists; split; [reflexivity | apply fold_max_is_max].
Qed.

Lemma series_mean_Some (s : list float) :
  dropna s <> [] ->
  series_mean s
  = Some (Qsum (dropna s) / inject_Z (Z.of_nat (List.length (dropna s)))).
Proof.
  unfold series_mean. destruct (dropna s); [congruence | reflexivity].
Qed.

(** A selection splits every sum: rows in [p] plus rows in [q], when each
    row lies in exactly one of the two. *)
Lemma Qsum_partition (col : row -> float) (p q : row -> bool) (data : DataFrame) :
  Forall (fun r => p r = negb (q r)) data ->
  Qsum (dropna (getcol col data))
  == Qsum (dropna (getcol col (filter p data)))
     + Qsum (dropna (getcol col (filter q data))).
Proof.
  induction 1 as [| r data Hr _ IH]; simpl.
  - reflexivity.
  - rewrite Hr. destruct (q r); simpl; destruct (col r); simpl;
      rewrite IH; ring.
Qed.

(** ** Valid records *)

Lemma in_year_cases (r : row) :
  in_year r = true -> In (index r) months.
Proof.
  unfold in_year, months. rewrite andb_true_iff, !Z.leb_le. intros [Hlo Hhi].
  assert (C : (index r = 1 \/ index r = 2 \/ index r = 3 \/ index r = 4
               \/ index r = 5 \/ index r = 6 \/ index r = 7 \/ index r = 8
               \/ index r = 9 \/ index r = 10 \/ index r = 11
               \/ index r = 12)%Z) by lia.
  simpl. intuition.
Qed.

Lemma season_sets_complementary (r : row) :
  in_year r = true ->
  isin (index r) northern_summer_months
  = negb (isin (index r) northern_winter_months).
Proof.
  intro H. apply in_year_cases in H. simpl in H.
  repeat (destruct H as [H | H]; [rewrite <- H; reflexivity |]).
  contradiction.
Qed.

Lemma present_cells (r : row) :
  present r = true -> exists t p, tavg r = Some t /\ prcp r = Some p.
Proof.
  unfold present. destruct (tavg r) as [t |], (prcp r) as [p |];
    simpl; try discriminate.
  intros _. now exists t, p.
Qed.

Lemma validb_rows (data : DataFrame) :
  validb data = true ->
  Forall (fun r => in_year r = true /\ present r = true) data.
Proof.
  unfold validb. rewrite andb_true_iff. intros [H _].
  rewrite forallb_forall in H. apply Forall_forall. intros r Hr.
  apply andb_true_iff. now apply H.
Qed.

Lemma validb_count (data : DataFrame) (m : Z) :
  validb data = true -> In m months -> count_month data m = 1%nat.
Proof.
  unfold validb. rewrite andb_true_iff. intros [_ H] Hm.
  rewrite forallb_forall in H. now apply Nat.eqb_eq, H.
Qed.

(** Every month of the year has its row. *)
Lemma validb_has_month (data : DataFrame) (m : Z) :
  validb data = true -> In m months ->
  exists r, In r data /\ index r = m.
Proof.
  intros V Hm. pose proof (validb_count data m V Hm) as C.
  unfold count_month, select_isin in C.
  destruct (filter (fun r => isin (index r) [m]) data) as [| r t] eqn:E;
    [discriminate |].
  assert (Hin : In r (filter (fun r => isin (index r) [m]) data))
    by (rewrite E; now left).
  apply filter_In in Hin. destruct Hin as [Hin Hr].
  exists r. split; [assumption |].
  unfold isin in Hr. simpl in Hr. rewrite orb_false_r in Hr.
  now apply Z.eqb_eq.
Qed.

Lemma sum_counts_cons (r : row) (data : DataFrame) :
  in_year r = true -> sum_counts (r :: data) = S (sum_counts data).
Proof.
  intro H. apply in_year_cases in H.
  unfold sum_counts, count_month, select_isin, isin, months in *.
  simpl in H. simpl.
  repeat (destruct H as [H | H]; [rewrite <- H; simpl; lia |]).
  contradiction.
Qed.

Lemma length_sum_counts (data : DataFrame) :
  Forall (fun r => in_year r = true) data ->
  List.length data = sum_counts data.
Proof.
  induction 1 as [| r data Hr _ IH].
  - reflexivity.
  - rewrite sum_counts_cons by assumption. simpl. now rewrite IH.
Qed.

Lemma validb_length (data : DataFrame) :
  validb data = true -> List.length data = 12%nat.
Proof.
  intro V. rewrite length_sum_counts.
  - unfold sum_counts, months. simpl.
    rewrite !(validb_count data _ V) by (simpl; tauto). reflexivity.
  - eapply Forall_impl; [| apply validb_rows, V]. now intros r [H _].
Qed.

Lemma present_temps (data : DataFrame) :
  Forall (fun r => present r = true) data ->
  List.length (temps data) = List.length data
  /\ List.length (precs data) = List.length data.
Proof.
  unfold temps, precs, getcol.
  induction 1 as [| r data Hr _ [IHt IHp]]; simpl; [now split |].
  destruct (present_cells r Hr) as (t & p & Et & Ep).
  rewrite Et, Ep. simpl. now rewrite IHt, IHp.
Qed.

Lemma select_present (data : DataFrame) (ms : list Z) (m : Z) :
  Forall (fun r => present r = true) data ->
  In m ms -> (exists r, In r data /\ index r = m) ->
  temps (select_isin data ms) <> [] /\ precs (select_isin data ms) <> [].
Proof.
  intros P Hm (r & Hr & Hi).
  assert (Hsel : In r (select_isin data ms)).
  { apply filter_In. split; [assumption |].
    apply existsb_exists. exists m. split; [assumption |].
    now apply Z.eqb_eq. }
  assert (Psel : Forall (fun r => present r = true) (select_isin data ms)).
  { apply Forall_forall. intros x Hx. apply filter_In in Hx.
    rewrite Forall_forall in P. now apply P. }
  destruct (present_temps _ Psel) as [Lt Lp].
  split; intro E; [rewrite E in Lt | rewrite E in Lp];
    destruct (select_isin data ms); simpl in *; [contradiction | discriminate
                                                 | contradiction | discriminate].
Qed.

Lemma validb_present (data : DataFrame) :
  validb data = true -> Forall (fun r => present r = true) data.
Proof.
  intro V. eapply Forall_impl; [| apply validb_rows, V]. now intros r [_ H].
Qed.

Lemma validb_in_year (data : DataFrame) :
  validb data = true -> Forall (fun r => in_year r = true) data.
Proof.
  intro V. eapply Forall_impl; [| apply validb_rows, V]. now intros r [H _].
Qed.

Lemma validb_twelve (data : DataFrame) :
  validb data = true ->
  List.length (temps data) = 12%nat /\ List.length (precs data) = 12%nat.
Proof.
  intro V. destruct (present_temps data (validb_present data V)) as [Ht Hp].
  rewrite Ht, Hp. split; now apply validb_length.
Qed.

(** Both candidate half-years of a valid record are non-empty. *)
Lemma validb_half_years (data : DataFrame) (ms : list Z) :
  validb data = true ->
  ms = northern_summer_months \/ ms = northern_winter_months ->
  temps (select_isin data ms) <> [] /\ precs (select_isin data ms) <> [].
Proof.
  intros V [E | E]; subst ms.
  - apply (select_present data _ 4%Z (validb_present data V)).
    + simpl; tauto.
    + apply validb_has_month; [assumption | simpl; tauto].
  - apply (select_present data _ 1%Z (validb_present data V)).
    + simpl; tauto.
    + apply validb_has_month; [assumption | simpl; tauto].
Qed.

Lemma season_months_cases (data : DataFrame) :
  (summer_months data = northern_summer_months
   /\ winter_months data = northern_winter_months)
  \/ (summer_months data = northern_winter_months
      /\ winter_months data = northern_summer_months).
Proof.
  unfold summer_months, winter_months, season_months.
  destruct (fge _ _); simpl; [left | right]; split; reflexivity.
Qed.

(** The aggregate statistics of a valid record. *)
Lemma valid_statistics (data : DataFrame) :
  validb data = true ->
  exists mn av mx,
    min_monthly_temp data = Some mn /\ is_min mn (temps data)
    /\ avg_monthly_temp data = Some av /\ av = Qsum (temps data) / 12
    /\ max_monthly_temp data = Some mx /\ is_max mx (temps data)
    /\ yearly_prcp data = Some (Qsum (precs data)).
Proof.
  intro V. destruct (validb_twelve data V) as [Lt _].
  assert (NE : dropna (getcol tavg data) <> []).
  { fold (temps data). intro E. rewrite E in Lt. discriminate. }
  destruct (series_min_is_min _ NE) as (mn & Emn & Hmn).
  destruct (series_max_is_max _ NE) as (mx & Emx & Hmx).
  exists mn, (Qsum (temps data) / 12), mx.
  unfold min_monthly_temp, avg_monthly_temp, max_monthly_temp, yearly_prcp.
  repeat split; try assumption; try apply Hmn; try apply Hmx.
  rewrite (series_mean_Some _ NE). fold (temps data). now rewrite Lt.
Qed.

(** The seasonal quantities of a valid record, whichever half-year is
    taken as summer. *)
Lemma valid_seasonal (data : DataFrame) :
  validb data = true ->
  exists ds ws dw ww,
    summer_prcp data = Some (Qsum (precs (summer_data data)))
    /\ winter_prcp data = Some (Qsum (precs (winter_data data)))
    /\ driest_summer_month data = Some ds
    /\ is_min ds (precs (summer_data data))
    /\ wettest_summer_month data = Some ws
    /\ is_max ws (precs (summer_data data))
    /\ driest_winter_month data = Some dw
    /\ is_min dw (precs (winter_data data))
    /\ wettest_winter_month data = Some ww
    /\ is_max ww (precs (winter_data data)).
Proof.
  intro V.
  assert (NS : precs (summer_data data) <> []).
  { unfold summer_data.
    destruct (season_months_cases data) as [[E _] | [E _]]; rewrite E;
      apply validb_half_years; auto. }
  assert (NW : precs (winter_data data) <> []).
  { unfold winter_data.
    destruct (season_months_cases data) as [[_ E] | [_ E]]; rewrite E;
      apply validb_half_years; auto. }
  destruct (series_min_is_min _ NS) as (ds & Eds & Hds).
  destruct (series_max_is_max _ NS) as (ws & Ews & Hws).
  destruct (series_min_is_min _ NW) as (dw & Edw & Hdw).
  destruct (series_max_is_max _ NW) as (ww & Eww & Hww).
  exists ds, ws, dw, ww.
  unfold summer_prcp, winter_prcp, driest_summer_month, wettest_summer_month,
    driest_winter_month, wettest_winter_month.
  repeat split; try assumption;
    try apply Hds; try apply Hws; try apply Hdw; try apply Hww.
Qed.

(** Summer and winter precipitation add up to the yearly precipitation. *)
Lemma valid_season_sum (data : DataFrame) :
  validb data = true ->
  Qsum (precs (summer_data data)) + Qsum (precs (winter_data data))
  == Qsum (precs data).
Proof.
  intro V. unfold summer_data, winter_data, precs, select_isin.
  assert (P := Qsum_partition prcp
                 (fun r => isin (index r) northern_summer_months)
                 (fun r => isin (index r) northern_winter_months) data).
  rewrite P.
  - destruct (season_months_cases data) as [[E1 E2] | [E1 E2]];
      rewrite E1, E2; ring.
  - eapply Forall_impl; [| apply validb_in_year, V].
    intros r Hr. now apply season_sets_complementary.
Qed.

(** ** The decision chain *)

Ltac unfloat :=
  unfold fge, flt, fle, fgt, fadd, fsub, fmul, fdiv, cmp2, lift2,
    of_Q, of_int, inject_Z in *.

Lemma threshold_value (data : DataFrame) (av s w y : Q) :
  avg_monthly_temp data = Some av ->
  summer_prcp data = Some s -> winter_prcp data = Some w ->
  yearly_prcp data = Some y ->
  exists thr,
    prcp_threshold data = Some thr
    /\ (0.7 * y <= s -> thr == 20 * av + 280)
    /\ (s < 0.7 * y -> w < 0.7 * y -> thr == 20 * av + 140)
    /\ (s < 0.7 * y -> 0.7 * y <= w -> thr == 20 * av).
Proof.
  intros Eav Es Ew Ey. unfold prcp_threshold.
  rewrite Eav, Es, Ew, Ey. unfloat.
  destruct (Qle_bool (0.7 * y) s) eqn:C1;
    [| destruct (Qltb w (0.7 * y)) eqn:C2];
    eexists; (split; [reflexivity |]); qprop;
    repeat split; intros; try reflexivity; lra.
Qed.

Lemma primary_label_chain (data : DataFrame) (isotherm : Z) (mn mx y thr : Q) :
  min_monthly_temp data = Some mn -> max_monthly_temp data = Some mx ->
  yearly_prcp data = Some y -> prcp_threshold data = Some thr ->
  primary_label data isotherm
  = (if Qltb mx 10 then "E"
     else if Qltb y thr then "B"
     else if Qle_bool 18 mn then "A"
     else if Qle_bool (inject_Z isotherm) mn then "C" else "D")%string.
Proof.
  intros Emn Emx Ey Ethr. unfold primary_label, labels.
  rewrite Emn, Emx, Ey, Ethr. unfold flt, fge, cmp2, of_int.
  change (inject_Z 10) with 10. change (inject_Z 18) with 18.
  destruct (Qltb mx 10); [reflexivity |].
  destruct (Qltb y thr); [reflexivity |].
  destruct (Qle_bool 18 mn); reflexivity.
Qed.

(** The code starts with the primary label, which is one character. *)
Lemma primary_label_one_char (data : DataFrame) (isotherm : Z) :
  exists c, primary_label data isotherm = String c EmptyString
            /\ In c ["A"; "B"; "C"; "D"; "E"]%char.
Proof.
  unfold primary_label, labels.
  destruct (flt _ _); [eexists; split; [reflexivity | simpl; tauto] |].
  destruct (flt _ _); [eexists; split; [reflexivity | simpl; tauto] |].
  destruct (fge _ _); [eexists; split; [reflexivity | simpl; tauto] |].
  cbv zeta. cbn [fst snd].
  destruct (fge _ _); eexists; split; try reflexivity; simpl; tauto.
Qed.

Lemma code_first_letter (data : DataFrame) (isotherm : Z) (c : ascii) :
  primary_label data isotherm = String c EmptyString ->
  letter 0 (Koppen_climate_classification
              (calculate_koppen_climate_from_normals data isotherm))
  = Some c.
Proof.
  intro E. unfold calculate_koppen_climate_from_normals,
    climate_classification. cbn [Koppen_climate_classification].
  rewrite E. reflexivity.
Qed.

Lemma code_second_letter (data : DataFrame) (isotherm : Z) (c d : ascii) :
  primary_label data isotherm = String c EmptyString ->
  secondary_label data isotherm = String d EmptyString ->
  letter 1 (Koppen_climate_classification
              (calculate_koppen_climate_from_normals data isotherm))
  = Some d.
Proof.
  intros E1 E2. unfold calculate_koppen_climate_from_normals,
    climate_classification. cbn [Koppen_climate_classification].
  rewrite E1, E2. reflexivity.
Qed.

(** All the numbers the result reports are present for a valid record. *)
Lemma valid_numbers (data : DataFrame) :
  validb data = true ->
  exists mn av mx thr,
    min_monthly_temp data = Some mn /\ avg_monthly_temp data = Some av
    /\ max_monthly_temp data = Some mx /\ prcp_threshold data = Some thr
    /\ yearly_prcp data = Some (Qsum (precs data))
    /\ is_min mn (temps data) /\ is_max mx (temps data)
    /\ av = Qsum (temps data) / 12.
Proof.
  intro V.
  destruct (valid_statistics data V)
    as (mn & av & mx & Emn & Hmn & Eav & Hav & Emx & Hmx & Ey).
  destruct (valid_seasonal data V) as (ds & ws & dw & ww & Es & Ew & _).
  destruct (threshold_value data _ _ _ _ Eav Es Ew Ey) as (thr & Ethr & _).
  exists mn, av, mx, thr. repeat split; try assumption; apply Hmn || apply Hmx.
Qed.

(** ** The primary letter *)



(** ** The aridity threshold *)



(** ** Polar climates *)

Lemma polar_labels (data : DataFrame) (isotherm : Z) (mx : Q) :
  max_monthly_temp data = Some mx -> mx < 10 ->
  labels data isotherm
  = ("E", if Qle_bool 0 mx then "T" else "F", "")%string.
Proof.
  intros Emx L. unfold labels. rewrite Emx. unfold flt, fge, cmp2, of_int.
  change (inject_Z 10) with 10. change (inject_Z 0) with 0.
  apply Qltb_true in L. now rewrite L.
Qed.

Lemma twelve_cells (ps : list Q) :
  List.length ps = 12%nat ->
  exists p1 p2 p3 p4 p5 p6 p7 p8 p9 p10 p11 p12,
    ps = [p1; p2; p3; p4; p5; p6; p7; p8; p9; p10; p11; p12].
Proof.
  intro L.
  do 12 (destruct ps as [| ? ps]; [discriminate |]).
  destruct ps; [| discriminate].
  repeat eexists.
Qed.

(** C6. A valid record is polar exactly when its maximum monthly mean
    temperature is strictly below 10, so a maximum of exactly 10 is not
    polar.  A polar code is ET when the maximum is at least 0 and EF
    otherwise, with no third letter; with every month at -10 the code is
    EF whatever the precipitation. *)
Theorem polar_rule :
  (forall (data : DataFrame) (isotherm : Z),
     validb data = true ->
     let result := calculate_koppen_climate_from_normals data isotherm in
     let code := Koppen_climate_classification result in
     exists mx,
       is_max mx (temps data) /\ Max_Monthly_Temp result = Some mx
       /\ (letter 0 code = Some "E"%char <-> mx < 10)
       /\ (mx == 10 -> letter 0 code <> Some "E"%char)
       /\ (mx < 10 -> 0 <= mx -> code = "ET"%string)
       /\ (mx < 0 -> code = "EF"%string))
  /\ (forall (ps : list Q) (isotherm : Z),
        List.length ps = 12%nat ->
        Koppen_climate_classification
          (calculate_koppen_climate_from_normals
             (record_of (repeat (-10) 12) ps) isotherm)
        = "EF"%string).
Proof.
  split.
  - intros data isotherm V result code.
    destruct (valid_numbers data V)
      as (mn & av & mx & thr & Emn & Eav & Emx & Ethr & Ey & Hmn & Hmx & _).
    exists mx. split; [assumption |]. split; [assumption |].
    pose proof (primary_label_chain data isotherm _ _ _ _ Emn Emx Ey Ethr)
      as P.
    destruct (primary_label_one_char data isotherm) as (c & Ec & _).
    assert (Iff : letter 0 code = Some "E"%char <-> mx < 10).
    { unfold code, result. rewrite (code_first_letter data isotherm c Ec).
      rewrite Ec in P.
      destruct (Qltb mx 10) eqn:C1; qprop.
      - split; [intros _; assumption | intros _; congruence].
      - split; [intro E | intro L; lra].
        destruct (Qltb (Qsum (precs data)) thr);
          [| destruct (Qle_bool 18 mn);
             [| destruct (Qle_bool (inject_Z isotherm) mn)]];
          congruence. }
    split; [exact Iff |].
    split; [intros E H; apply Iff in H; lra |].
    unfold code, result, calculate_koppen_climate_from_normals,
      climate_classification, primary_label, secondary_label, tertiary_label.
    cbn [Koppen_climate_classification].
    split.
    + intros L G. rewrite (polar_labels data isotherm mx Emx L).
      apply Qle_bool_iff in G. now rewrite G.
    + intro L. assert (L10 : mx < 10) by lra.
      rewrite (polar_labels data isotherm mx Emx L10).
      apply Qle_bool_false in L. now rewrite L.
  - intros ps isotherm L.
    destruct (twelve_cells ps L)
      as (p1 & p2 & p3 & p4 & p5 & p6 & p7 & p8 & p9 & p10 & p11 & p12 & E).
    subst ps. reflexivity.
Qed.

Lemma polar_rule_witness :
  (validb ice_cap = true
   /\ let result := calculate_koppen_climate_from_normals ice_cap 0 in
      let code := Koppen_climate_classification result in
      exists mx,
        is_max mx (temps ice_cap) /\ Max_Monthly_Temp result = Some mx
        /\ (letter 0 code = Some "E"%char <-> mx < 10)
        /\ (mx == 10 -> letter 0 code <> Some "E"%char)
        /\ (mx < 10 -> 0 <= mx -> code = "ET"%string)
        /\ (mx < 0 -> code = "EF"%string))
  /\ (List.length (repeat 5 12) = 12%nat
      /\ Koppen_climate_classification
           (calculate_koppen_climate_from_normals
              (record_of (repeat (-10) 12) (repeat 5 12)) 0)
         = "EF"%string).
Proof.
  split; (split; [reflexivity |]).
  - apply (proj1 polar_rule ice_cap 0%Z). reflexivity.
  - apply (proj2 polar_rule (repeat 5 12) 0%Z). reflexivity.
Defined.

(** ** Temperate and continental climates *)

Lemma temperate_labels (data : DataFrame) (isotherm : Z)
    (mn mx thr ds ws dw ww : Q) :
  min_monthly_temp data = Some mn -> max_monthly_temp data = Some mx ->
  yearly_prcp data = Some (Qsum (precs data)) ->
  prcp_threshold data = Some thr ->
  driest_summer_month data = Some ds -> wettest_summer_month data = Some ws ->
  driest_winter_month data = Some dw -> wettest_winter_month data = Some ww ->
  10 <= mx -> thr <= Qsum (precs data) -> mn < 18 ->
  primary_label data isotherm
  = (if Qle_bool (inject_Z isotherm) mn then "C" else "D")%string
  /\ secondary_label data isotherm
     = (if Qle_bool (10 * dw) ws then "w"
        else if Qle_bool (3 * ds) ww
                && Qltb ds (if Qle_bool (inject_Z isotherm) mn
                            then 40 else 30)
        then "s" else "f")%string.
Proof.
  intros Emn Emx Ey Ethr Eds Ews Edw Eww Hmx Hy Hmn.
  apply Qltb_false in Hmx. apply Qltb_false in Hy.
  apply Qle_bool_false in Hmn.
  unfold primary_label, secondary_label, labels.
  rewrite Emn, Emx, Ey, Ethr, Eds, Ews, Edw, Eww.
  unfold flt, fge, fmul, cmp2, lift2, of_int.
  change (inject_Z 10) with 10. change (inject_Z 18) with 18.
  change (inject_Z 3) with 3.
  rewrite Hmx, Hy, Hmn. cbv zeta. cbn [fst snd].
  destruct (Qle_bool (inject_Z isotherm) mn); split; reflexivity.
Qed.



Example continental_north_codes :
  Koppen_climate_classification
    (calculate_koppen_climate_from_normals continental_north isotherm_default)
  = "Dfa"%string
  /\ Koppen_climate_classification
       (calculate_koppen_climate_from_normals continental_north (-3))
     = "Cfa"%string
  /\ min_monthly_temp continental_north = Some (-3).
Proof. repeat split; reflexivity. Qed.



Example mediterranean_south_code :
  Koppen_climate_classification
    (calculate_koppen_climate_from_normals mediterranean_south 0)
  = "Csa"%string
  /\ summer_months mediterranean_south = northern_winter_months.
Proof. split; reflexivity. Qed.

(** ** A tropical scenario *)

(** C9. The record with every month at 25 degrees and 100 mm, classified
    with the default isotherm, gets the code Af: the yearly precipitation
    is 1200, the record is not polar (maximum 25) and not arid (1200 is not
    below the threshold, 640), the minimum temperature 25 is at least 18,
    the minimum monthly precipitation 100 is at least 60, and there is no
    third letter. *)
Theorem tropical_rainforest_scenario :
  let result :=
    calculate_koppen_climate_from_normals all_25_100 isotherm_default in
  Koppen_climate_classification result = "Af"%string
  /\ Min_Monthly_Temp result = Some 25
  /\ Max_Monthly_Temp result = Some 25
  /\ Yearly_Precipitation result = Some 1200
  /\ (exists thr, Precipitation_Threshold result = Some thr
                  /\ thr == 640 /\ ~ 1200 < thr)
  /\ series_min (getcol prcp all_25_100) = Some 100
  /\ labels all_25_100 isotherm_default = ("A", "f", "")%string.
Proof.
  cbv zeta. repeat split; try reflexivity.
  eexists. split; [reflexivity |]. split; [reflexivity |].
  intro L. apply Qltb_true in L. discriminate L.
Qed.

(** ** Hemisphere detection *)

Lemma select_length (data : DataFrame) (ms : list Z) :
  ms = northern_summer_months \/ ms = northern_winter_months ->
  Forall (fun r => in_year r = true) data ->
  List.length (select_isin data ms) = season_counts ms data.
Proof.
  intros Hms. induction 1 as [| r data Hr _ IH].
  - destruct Hms; subst ms; reflexivity.
  - apply in_year_cases in Hr.
    unfold season_counts, count_month, select_isin, isin, months in *.
    simpl in Hr.
    destruct Hms; subst ms; simpl in *;
      repeat (destruct Hr as [Hr | Hr]; [rewrite <- Hr; simpl; lia |]);
      contradiction.
Qed.

Lemma validb_half_year_six (data : DataFrame) (ms : list Z) :
  validb data = true ->
  ms = northern_summer_months \/ ms = northern_winter_months ->
  List.length (temps (select_isin data ms)) = 6%nat.
Proof.
  intros V Hms.
  assert (P : Forall (fun r => present r = true) (select_isin data ms)).
  { apply Forall_forall. intros x Hx. apply filter_In in Hx.
    pose proof (validb_present data V) as A. rewrite Forall_forall in A.
    now apply A. }
  destruct (present_temps _ P) as [Lt _]. rewrite Lt.
  rewrite (select_length data ms Hms (validb_in_year data V)).
  destruct Hms; subst ms; unfold season_counts; simpl;
    rewrite !(validb_count data _ V) by (simpl; tauto); reflexivity.
Qed.

Lemma validb_half_year_means (data : DataFrame) :
  validb data = true ->
  northern_summer_mean data
  = Some (Qsum (temps (select_isin data northern_summer_months)) / 6)
  /\ northern_winter_mean data
     = Some (Qsum (temps (select_isin data northern_winter_months)) / 6).
Proof.
  intro V. unfold northern_summer_mean, northern_winter_mean.
  split.
  - rewrite series_mean_Some by (apply validb_half_years; auto).
    fold (temps (select_isin data northern_summer_months)).
    rewrite validb_half_year_six; auto.
  - rewrite series_mean_Some by (apply validb_half_years; auto).
    fold (temps (select_isin data northern_winter_months)).
    rewrite validb_half_year_six; auto.
Qed.

Lemma seasons_are_selected (data : DataFrame) :
  validb data = true ->
  seasons_are data (summer_data data) (winter_data data).
Proof.
  intro V.
  destruct (valid_seasonal data V)
    as (ds & ws & dw & ww & Es & Ew & Eds & Hds & Ews & Hws
        & Edw & Hdw & Eww & Hww).
  unfold seasons_are. repeat split; try assumption; eexists; eauto.
Qed.



(** ** The branches of the aridity adjustment *)




(** ** Incomplete records *)

Lemma validb_has_full_data (normals : DataFrame) :
  validb normals = true -> has_full_data normals = true.
Proof.
  intro V. unfold has_full_data. apply andb_true_iff. split.
  - apply negb_true_iff.
    destruct (existsb _ normals) eqn:E; [| reflexivity].
    apply existsb_exists in E. destruct E as (r & Hr & Hna).
    pose proof (validb_present normals V) as P.
    rewrite Forall_forall in P. specialize (P r Hr).
    unfold present in P. apply andb_true_iff in P. destruct P as [Pt Pp].
    apply negb_true_iff in Pt. apply negb_true_iff in Pp.
    rewrite Pt, Pp in Hna. discriminate.
  - rewrite (validb_length normals V). reflexivity.
Qed.

Lemma count_month_cons (r : row) (data : DataFrame) (m : Z) :
  count_month (r :: data) m
  = ((if (index r =? m)%Z then 1 else 0) + count_month data m)%nat.
Proof.
  unfold count_month, select_isin, isin. simpl. rewrite orb_false_r.
  destruct (index r =? m)%Z; reflexivity.
Qed.

Lemma count_month_absent (data : DataFrame) (m : Z) :
  isin m (map index data) = false -> count_month data m = 0%nat.
Proof.
  induction data as [| r data IH]; [reflexivity |].
  unfold isin. simpl. rewrite orb_false_iff. intros [Hr Hd].
  rewrite count_month_cons, Z.eqb_sym, Hr. now apply IH.
Qed.

Lemma nodupb_count (data : DataFrame) (m : Z) :
  nodupb (map index data) = true -> (count_month data m <= 1)%nat.
Proof.
  induction data as [| r data IH]; simpl; [intros _; apply Nat.le_0_l |].
  rewrite andb_true_iff, negb_true_iff. intros [Hr Hd].
  specialize (IH Hd). rewrite count_month_cons.
  destruct (index r =? m)%Z eqn:E; [| assumption].
  apply Z.eqb_eq in E. subst m.
  rewrite (count_month_absent data (index r) Hr). apply Nat.le_refl.
Qed.

(** Twelve rows with distinct months of the year and nothing missing are
    a valid record. *)
Lemma full_data_validb (normals : DataFrame) :
  month_indexedb normals = true -> has_full_data normals = true ->
  validb normals = true.
Proof.
  unfold month_indexedb, has_full_data. rewrite !andb_true_iff.
  intros [Hy Hd] [Hna Hlen].
  apply negb_true_iff in Hna. apply Z.eqb_eq in Hlen.
  rewrite forallb_forall in Hy.
  unfold validb. apply andb_true_iff. split.
  - apply forallb_forall. intros r Hr. rewrite (Hy r Hr). simpl.
    unfold present.
    destruct (isna (tavg r)) eqn:Et, (isna (prcp r)) eqn:Ep;
      try reflexivity; exfalso;
      (assert (X : existsb (fun r => isna (tavg r) || isna (prcp r)) normals
                   = true)
        by (apply existsb_exists; exists r; split;
            [assumption | now rewrite Et, Ep]));
      congruence.
  - assert (L : List.length normals = sum_counts normals).
    { apply length_sum_counts, Forall_forall. exact Hy. }
    unfold sum_counts, months in L. simpl in L.
    pose proof (fun m => nodupb_count normals m Hd) as B.
    pose proof (B 1%Z). pose proof (B 2%Z). pose proof (B 3%Z).
    pose proof (B 4%Z). pose proof (B 5%Z). pose proof (B 6%Z).
    pose proof (B 7%Z). pose proof (B 8%Z). pose proof (B 9%Z).
    pose proof (B 10%Z). pose proof (B 11%Z). pose proof (B 12%Z).
    unfold months. simpl. rewrite !andb_true_iff, !Nat.eqb_eq. lia.
Qed.




(** ** The input frame is left as it was *)

Module StoreFacts.
Import stdpp.gmap.
Import Store.

Lemma alloc_extends (h : heap) (frame : DataFrame) :
  forall (l : loc) (d : DataFrame),
    h !! l = Some d -> (alloc h frame).2 !! l = Some d.
Proof.
  intros l d Hl.
  change ((alloc h frame).2) with (<[fresh (dom h) := frame]> h).
  rewrite lookup_insert_ne; [assumption |].
  intro E. subst l.
  assert (F : fresh (dom h) ∉ dom h) by apply is_fresh.
  apply F. apply elem_of_dom. eauto.
Qed.

Lemma getitem_isin_extends (h : heap) (l : loc) (ms : list Z) (d : DataFrame) :
  h !! l = Some d ->
  exists l' h',
    getitem_isin h l ms = Some (l', h')
    /\ h' !! l' = Some (select_isin d ms)
    /\ forall (k : loc) (f : DataFrame), h !! k = Some f -> h' !! k = Some f.
Proof.
  intro Hl. unfold getitem_isin. rewrite Hl.
  exists (alloc h (select_isin d ms)).1, (alloc h (select_isin d ms)).2.
  split; [now destruct (alloc h (select_isin d ms)) |].
  split.
  - change ((alloc h (select_isin d ms)).2)
      with (<[fresh (dom h) := select_isin d ms]> h).
    change ((alloc h (select_isin d ms)).1) with (fresh (dom h)).
    apply lookup_insert_eq.
  - intros k f Hk. now apply alloc_extends.
Qed.


End StoreFacts.

(** * Further properties of the classifier *)

Lemma code_third_letter (data : DataFrame) (isotherm : Z) (c d e : ascii) :
  primary_label data isotherm = String c EmptyString ->
  secondary_label data isotherm = String d EmptyString ->
  tertiary_label data isotherm = String e EmptyString ->
  Koppen_climate_classification
    (calculate_koppen_climate_from_normals data isotherm)
  = String c (String d (String e EmptyString)).
Proof.
  intros E1 E2 E3. unfold calculate_koppen_climate_from_normals,
    climate_classification. cbn [Koppen_climate_classification].
  rewrite E1, E2, E3. reflexivity.
Qed.

Lemma code_of_labels (data : DataFrame) (isotherm : Z) (p s t : string) :
  labels data isotherm = (p, s, t) ->
  Koppen_climate_classification
    (calculate_koppen_climate_from_normals data isotherm)
  = (p ++ s ++ t)%string.
Proof.
  intro E. unfold calculate_koppen_climate_from_normals,
    climate_classification, primary_label, secondary_label, tertiary_label.
  cbn [Koppen_climate_classification]. now rewrite E.
Qed.

(** ** Arid climates *)

Lemma arid_labels (data : DataFrame) (isotherm : Z) (av mx thr : Q) :
  avg_monthly_temp data = Some av -> max_monthly_temp data = Some mx ->
  yearly_prcp data = Some (Qsum (precs data)) ->
  prcp_threshold data = Some thr ->
  10 <= mx -> Qsum (precs data) < thr ->
  labels data isotherm
  = ("B",
     if Qltb (Qsum (precs data)) (thr / 2) then "W" else "S",
     if Qle_bool 18 av then "h" else "k")%string.
Proof.
  intros Eav Emx Ey Ethr Hmx Hy.
  apply Qltb_false in Hmx. apply Qltb_true in Hy.
  unfold labels. rewrite Eav, Emx, Ey, Ethr.
  unfold flt, fge, fdiv, cmp2, lift2, of_int.
  change (inject_Z 10) with 10. change (inject_Z 18) with 18.
  change (inject_Z 2) with 2.
  now rewrite Hmx, Hy.
Qed.



Example steppe_code :
  Koppen_climate_classification
    (calculate_koppen_climate_from_normals steppe 0) = "BSk"%string.
Proof. reflexivity. Qed.

(** ** Tropical climates *)

Lemma tropical_labels (data : DataFrame) (isotherm : Z) (mn mx thr mp : Q) :
  min_monthly_temp data = Some mn -> max_monthly_temp data = Some mx ->
  yearly_prcp data = Some (Qsum (precs data)) ->
  prcp_threshold data = Some thr ->
  series_min (getcol prcp data) = Some mp ->
  10 <= mx -> thr <= Qsum (precs data) -> 18 <= mn ->
  labels data isotherm
  = ("A",
     if Qle_bool 60 mp then "f"
     else if Qle_bool (100 - 0.04 * Qsum (precs data)) mp then "m" else "w",
     "")%string.
Proof.
  intros Emn Emx Ey Ethr Emp Hmx Hy Hmn.
  apply Qltb_false in Hmx. apply Qltb_false in Hy.
  apply Qle_bool_iff in Hmn.
  unfold labels. rewrite Emn, Emx, Ey, Ethr, Emp.
  unfold flt, fge, fsub, fmul, cmp2, lift2, of_int, of_Q.
  change (inject_Z 10) with 10. change (inject_Z 18) with 18.
  change (inject_Z 60) with 60. change (inject_Z 100) with 100.
  now rewrite Hmx, Hy, Hmn.
Qed.



Example monsoon_code :
  Koppen_climate_classification
    (calculate_koppen_climate_from_normals monsoon 0) = "Am"%string.
Proof. reflexivity. Qed.

(** ** The temperature letter of temperate and continental climates *)

Lemma mask_sum_gt (s : list float) (c : Q) :
  mask_sum (series_gt s (Some c))
  = Z.of_nat (List.length (filter (Qltb c) (dropna s))).
Proof.
  unfold mask_sum, series_gt. f_equal.
  induction s as [| [x |] s IH]; simpl; [reflexivity | |assumption].
  destruct (Qltb c x); simpl; now rewrite IH.
Qed.

Lemma temperate_tertiary (data : DataFrame) (isotherm : Z) (mn mx thr : Q) :
  min_monthly_temp data = Some mn -> max_monthly_temp data = Some mx ->
  yearly_prcp data = Some (Qsum (precs data)) ->
  prcp_threshold data = Some thr ->
  10 <= mx -> thr <= Qsum (precs data) -> mn < 18 ->
  tertiary_label data isotherm
  = (if (4 <=? months_above_10 data)%Z then
       if Qle_bool 22 mx then "a" else "b"
     else if Qle_bool mn (-38) then "d" else "c")%string.
Proof.
  intros Emn Emx Ey Ethr Hmx Hy Hmn.
  apply Qltb_false in Hmx. apply Qltb_false in Hy.
  apply Qle_bool_false in Hmn.
  unfold tertiary_label, labels. rewrite Emn, Emx, Ey, Ethr.
  unfold of_int.
  change (inject_Z 10) with 10. change (inject_Z 18) with 18.
  change (inject_Z 22) with 22. change (inject_Z (-38)) with (-38).
  rewrite mask_sum_gt. fold (temps data). fold (months_above_10 data).
  unfold flt, fge, fle, cmp2.
  rewrite Hmx, Hy, Hmn. reflexivity.
Qed.


Lemma secondary_label_one_char (data : DataFrame) (isotherm : Z) :
  exists c, secondary_label data isotherm = String c EmptyString.
Proof.
  unfold secondary_label, labels.
  destruct (flt _ _); [destruct (fge _ _); eexists; reflexivity |].
  destruct (flt _ _); [destruct (flt _ _); eexists; reflexivity |].
  destruct (fge _ _).
  - cbv zeta. cbn [fst snd].
    destruct (fge _ _); [| destruct (fge _ _)]; eexists; reflexivity.
  - cbv zeta. cbn [fst snd].
    destruct (fge _ _); [eexists; reflexivity |].
    destruct (_ && _); eexists; reflexivity.
Qed.

Lemma code_third_is_tertiary (data : DataFrame) (isotherm : Z) :
  letter 2 (Koppen_climate_classification
              (calculate_koppen_climate_from_normals data isotherm))
  = letter 0 (tertiary_label data isotherm).
Proof.
  destruct (primary_label_one_char data isotherm) as (c & Ec & _).
  destruct (secondary_label_one_char data isotherm) as (d & Ed).
  unfold calculate_koppen_climate_from_normals, climate_classification.
  cbn [Koppen_climate_classification]. rewrite Ec, Ed. reflexivity.
Qed.



Example yakutsk_code :
  validb yakutsk = true
  /\ Koppen_climate_classification
       (calculate_koppen_climate_from_normals yakutsk isotherm_default)
     = "Dfd"%string.
Proof. split; reflexivity. Qed.


(** ** What the code can be *)

Ltac split_ifs :=
  repeat match goal with
  | |- context [if ?b then _ else _] => destruct b
  end.

(** X4. Whatever the record (complete or not) and the isotherm, the code
    is one of the 33 codes of [koppen_codes]: two letters for polar and
    tropical climates, three for the others. *)
Theorem code_is_known (data : DataFrame) (isotherm : Z) :
  let code := Koppen_climate_classification
                (calculate_koppen_climate_from_normals data isotherm) in
  In code koppen_codes
  /\ (String.length code = 2%nat
      <-> letter 0 code = Some "E"%char \/ letter 0 code = Some "A"%char)
  /\ (String.length code = 3%nat
      <-> letter 0 code = Some "B"%char \/ letter 0 code = Some "C"%char
          \/ letter 0 code = Some "D"%char).
Proof.
  unfold calculate_koppen_climate_from_normals, climate_classification,
    primary_label, secondary_label, tertiary_label, labels.
  cbn [Koppen_climate_classification]. cbv zeta.
  destruct (flt (max_monthly_temp data) (of_int 10)).
  { split_ifs; cbn; intuition discriminate. }
  destruct (flt (yearly_prcp data) (prcp_threshold data)).
  { split_ifs; cbn; intuition discriminate. }
  destruct (fge (min_monthly_temp data) (of_int 18)).
  { split_ifs; cbn; intuition discriminate. }
  cbn [fst snd].
  destruct (fge (min_monthly_temp data) (of_int isotherm));
    split_ifs; cbn; intuition discriminate.
Qed.

(** ** The isotherm *)

(** X5. The isotherm only separates C from D.  A record whose first letter
    is neither C nor D gets the same result at every isotherm; the five
    numbers of the result and the third letter never depend on the
    isotherm; and a record that is C at some isotherm is C at every lower
    one. *)
Theorem isotherm_only_splits_C_and_D (data : DataFrame) (i1 i2 : Z) :
  let r1 := calculate_koppen_climate_from_normals data i1 in
  let r2 := calculate_koppen_climate_from_normals data i2 in
  let c1 := Koppen_climate_classification r1 in
  let c2 := Koppen_climate_classification r2 in
  (letter 0 c1 <> Some "C"%char -> letter 0 c1 <> Some "D"%char -> r1 = r2)
  /\ (Min_Monthly_Temp r1, Avg_Monthly_Temp r1, Max_Monthly_Temp r1,
      Precipitation_Threshold r1, Yearly_Precipitation r1)
     = (Min_Monthly_Temp r2, Avg_Monthly_Temp r2, Max_Monthly_Temp r2,
        Precipitation_Threshold r2, Yearly_Precipitation r2)
  /\ letter 2 c1 = letter 2 c2
  /\ ((i1 <= i2)%Z -> letter 0 c2 = Some "C"%char ->
      letter 0 c1 = Some "C"%char).
Proof.
  cbv zeta. split; [| split; [reflexivity | split]].
  - unfold calculate_koppen_climate_from_normals, climate_classification,
      primary_label, secondary_label, tertiary_label, labels.
    cbn [Koppen_climate_classification]. cbv zeta.
    destruct (flt (max_monthly_temp data) (of_int 10)); [reflexivity |].
    destruct (flt (yearly_prcp data) (prcp_threshold data)); [reflexivity |].
    destruct (fge (min_monthly_temp data) (of_int 18)); [reflexivity |].
    cbn [fst snd].
    destruct (fge (min_monthly_temp data) (of_int i1)); cbn;
      intros H1 H2; exfalso; [apply H1 | apply H2]; reflexivity.
  - rewrite !code_third_is_tertiary.
    unfold tertiary_label, labels. cbv zeta.
    destruct (flt (max_monthly_temp data) (of_int 10)); [reflexivity |].
    destruct (flt (yearly_prcp data) (prcp_threshold data)); [reflexivity |].
    destruct (fge (min_monthly_temp data) (of_int 18)); reflexivity.
  - intros Hi.
    destruct (primary_label_one_char data i1) as (c1 & E1 & _).
    destruct (primary_label_one_char data i2) as (c2 & E2 & _).
    rewrite (code_first_letter data i1 c1 E1), (code_first_letter data i2 c2 E2).
    revert E1 E2. unfold primary_label, labels. cbv zeta.
    destruct (flt (max_monthly_temp data) (of_int 10));
      [cbn; congruence |].
    destruct (flt (yearly_prcp data) (prcp_threshold data));
      [cbn; congruence |].
    destruct (fge (min_monthly_temp data) (of_int 18));
      [cbn; congruence |].
    cbn [fst snd].
    destruct (min_monthly_temp data) as [mn |]; unfold fge, cmp2, of_int;
      [| cbn; congruence].
    destruct (Qle_bool (inject_Z i2) mn) eqn:C2; [| cbn; congruence].
    assert (C1 : Qle_bool (inject_Z i1) mn = true).
    { apply Qle_bool_iff. apply Qle_bool_iff in C2.
      eapply Qle_trans; [| exact C2]. now rewrite <- Zle_Qle. }
    rewrite C1. cbn. congruence.
Qed.

Lemma isotherm_only_splits_C_and_D_witness :
  let r1 := calculate_koppen_climate_from_normals continental_north (-3) in
  let r2 := calculate_koppen_climate_from_normals continental_north (-1) in
  let c1 := Koppen_climate_classification r1 in
  let c2 := Koppen_climate_classification r2 in
  (letter 0 c1 <> Some "C"%char -> letter 0 c1 <> Some "D"%char -> r1 = r2)
  /\ (Min_Monthly_Temp r1, Avg_Monthly_Temp r1, Max_Monthly_Temp r1,
      Precipitation_Threshold r1, Yearly_Precipitation r1)
     = (Min_Monthly_Temp r2, Avg_Monthly_Temp r2, Max_Monthly_Temp r2,
        Precipitation_Threshold r2, Yearly_Precipitation r2)
  /\ letter 2 c1 = letter 2 c2
  /\ ((-3 <= -1)%Z -> letter 0 c2 = Some "C"%char ->
      letter 0 c1 = Some "C"%char).
Proof.
  exact (isotherm_only_splits_C_and_D continental_north (-3) (-1)).
Defined.


(** ** The reported statistics *)

Lemma Qsum_lower (m : Q) (l : list Q) :
  Forall (fun x => m <= x) l ->
  inject_Z (Z.of_nat (List.length l)) * m <= Qsum l.
Proof.
  induction 1 as [| x l Hx _ IH].
  - change (0 * m <= 0) || change (0 <= 0 * m). lra.
  - cbn [List.length Qsum fold_right].
    rewrite Nat2Z.inj_succ, <- Z.add_1_r, inject_Z_plus.
    change (inject_Z 1) with 1. unfold Qsum in IH. lra.
Qed.

Lemma Qsum_upper (m : Q) (l : list Q) :
  Forall (fun x => x <= m) l ->
  Qsum l <= inject_Z (Z.of_nat (List.length l)) * m.
Proof.
  induction 1 as [| x l Hx _ IH].
  - change (0 * m <= 0) || change (0 <= 0 * m). lra.
  - cbn [List.length Qsum fold_right].
    rewrite Nat2Z.inj_succ, <- Z.add_1_r, inject_Z_plus.
    change (inject_Z 1) with 1. unfold Qsum in IH. lra.
Qed.



(** ** Records without temperatures *)




(** ** The other hemisphere *)

Lemma shift_month_isin (m : Z) :
  In m months ->
  isin (shift_month m) northern_summer_months = isin m northern_winter_months
  /\ isin (shift_month m) northern_winter_months
     = isin m northern_summer_months.
Proof.
  intro H. simpl in H.
  repeat (destruct H as [H | H]; [rewrite <- H; split; reflexivity |]).
  contradiction.
Qed.

Lemma shift_month_involutive (a m : Z) :
  In a months -> In m months ->
  (shift_month a =? m)%Z = (a =? shift_month m)%Z.
Proof.
  intros Ha Hm.
  assert (Ra : (1 <= a <= 12)%Z) by (simpl in Ha; lia).
  assert (Rm : (1 <= m <= 12)%Z) by (simpl in Hm; lia).
  unfold shift_month.
  destruct (a <=? 6)%Z eqn:Ca; destruct (m <=? 6)%Z eqn:Cm;
    [apply Z.leb_le in Ca | apply Z.leb_le in Ca
     | apply Z.leb_gt in Ca | apply Z.leb_gt in Ca];
    [apply Z.leb_le in Cm | apply Z.leb_gt in Cm
     | apply Z.leb_le in Cm | apply Z.leb_gt in Cm];
    destruct (Z.eqb_spec (if true then a + 6 else a - 6) m);
    destruct (Z.eqb_spec (if false then a + 6 else a - 6) m);
    destruct (Z.eqb_spec a (m + 6)); destruct (Z.eqb_spec a (m - 6));
    try reflexivity; lia.
Qed.

Lemma shift_month_in_year (m : Z) : In m months -> In (shift_month m) months.
Proof.
  intro H. simpl in H.
  repeat (destruct H as [H | H]; [rewrite <- H; simpl; tauto |]).
  contradiction.
Qed.

Lemma getcol_shift (data : DataFrame) :
  getcol tavg (six_months_later data) = getcol tavg data
  /\ getcol prcp (six_months_later data) = getcol prcp data.
Proof.
  unfold getcol, six_months_later. rewrite !map_map. split; reflexivity.
Qed.

Lemma select_shift (data : DataFrame) :
  Forall (fun r => in_year r = true) data ->
  select_isin (six_months_later data) northern_summer_months
  = six_months_later (select_isin data northern_winter_months)
  /\ select_isin (six_months_later data) northern_winter_months
     = six_months_later (select_isin data northern_summer_months).
Proof.
  unfold select_isin, six_months_later.
  induction 1 as [| r data Hr _ [IH1 IH2]]; [split; reflexivity |].
  destruct (shift_month_isin (index r) (in_year_cases r Hr)) as [E1 E2].
  cbn [map filter]. cbn [shift_row index]. rewrite E1, E2, IH1, IH2.
  split.
  - destruct (isin (index r) northern_winter_months); reflexivity.
  - destruct (isin (index r) northern_summer_months); reflexivity.
Qed.

Lemma count_month_shift (data : DataFrame) (m : Z) :
  Forall (fun r => in_year r = true) data -> In m months ->
  count_month (six_months_later data) m = count_month data (shift_month m).
Proof.
  intros H Hm. induction H as [| r data Hr _ IH]; [reflexivity |].
  unfold six_months_later. cbn [map]. fold (six_months_later data).
  rewrite !count_month_cons, IH. cbn [shift_row index].
  now rewrite (shift_month_involutive _ _ (in_year_cases r Hr) Hm).
Qed.

Lemma validb_shift (data : DataFrame) :
  validb data = true -> validb (six_months_later data) = true.
Proof.
  intro V. unfold validb. apply andb_true_iff. split.
  - apply forallb_forall. intros r' Hr'.
    apply in_map_iff in Hr'. destruct Hr' as (r & <- & Hr).
    pose proof (validb_rows data V) as R. rewrite Forall_forall in R.
    destruct (R r Hr) as [Y P]. apply andb_true_iff. split; [| exact P].
    pose proof (shift_month_in_year _ (in_year_cases r Y)) as S.
    unfold in_year. cbn [shift_row index]. simpl in S.
    apply andb_true_iff. rewrite !Z.leb_le. lia.
  - apply forallb_forall. intros m Hm. apply Nat.eqb_eq.
    rewrite (count_month_shift data m (validb_in_year data V) Hm).
    apply validb_count; [assumption | now apply shift_month_in_year].
Qed.


Lemma seasons_shift (data : DataFrame) :
  validb data = true ->
  ~ Qsum (temps (select_isin data northern_summer_months))
    == Qsum (temps (select_isin data northern_winter_months)) ->
  summer_data (six_months_later data) = six_months_later (summer_data data)
  /\ winter_data (six_months_later data)
     = six_months_later (winter_data data).
Proof.
  intros V Ne.
  destruct (validb_half_year_means data V) as [Es Ew].
  destruct (select_shift data (validb_in_year data V)) as [S1 S2].
  unfold summer_data, winter_data, summer_months, winter_months,
    season_months, northern_summer_mean, northern_winter_mean.
  rewrite S1, S2. rewrite !(proj1 (getcol_shift _)).
  fold (northern_summer_mean data). fold (northern_winter_mean data).
  rewrite Es, Ew. unfold fge, cmp2.
  set (a := Qsum (temps (select_isin data northern_summer_months))) in *.
  set (b := Qsum (temps (select_isin data northern_winter_months))) in *.
  clearbody a b.
  destruct (Qle_bool (a / 6) (b / 6)) eqn:C1;
    destruct (Qle_bool (b / 6) (a / 6)) eqn:C2; qprop; cbn [fst snd];
    unfold Qdiv in C1, C2; change (/ 6) with (1 # 6) in C1, C2.
  - exfalso. apply Ne. apply Qle_antisym; lra.
  - now rewrite S1, S2.
  - now rewrite S1, S2.
  - exfalso. lra.
Qed.




Example tie_breaks_the_symmetry :
  validb flat_wet_summer = true
  /\ Koppen_climate_classification
       (calculate_koppen_climate_from_normals flat_wet_summer 0)
     = "Cwb"%string
  /\ Koppen_climate_classification
       (calculate_koppen_climate_from_normals
          (six_months_later flat_wet_summer) 0)
     = "Csb"%string.
Proof. repeat split; reflexivity. Qed.

(** * The colour table and [update_markers] *)

(** ** Which codes have a colour *)

Lemma temperate_is_never_very_cold (data : DataFrame) :
  fge (min_monthly_temp data) (of_int isotherm_default) = true ->
  fle (min_monthly_temp data) (of_int (-38)) = false.
Proof.
  destruct (min_monthly_temp data) as [mn |]; [| discriminate].
  unfold fge, fle, cmp2, of_int, isotherm_default.
  change (inject_Z 0) with 0. change (inject_Z (-38)) with (-38).
  intro H. destruct (Qle_bool mn (-38)) eqn:C; [| reflexivity].
  qprop. lra.
Qed.

Lemma default_code_cases (data : DataFrame) :
  In (Koppen_climate_classification
        (calculate_koppen_climate_from_normals data isotherm_default))
     koppen_codes_default.
Proof.
  pose proof (temperate_is_never_very_cold data) as T.
  unfold calculate_koppen_climate_from_normals, climate_classification,
    primary_label, secondary_label, tertiary_label, labels.
  cbn [Koppen_climate_classification]. cbv zeta.
  destruct (flt (max_monthly_temp data) (of_int 10)).
  { split_ifs; cbn; tauto. }
  destruct (flt (yearly_prcp data) (prcp_threshold data)).
  { split_ifs; cbn; tauto. }
  destruct (fge (min_monthly_temp data) (of_int 18)).
  { split_ifs; cbn; tauto. }
  cbn [fst snd].
  destruct (fge (min_monthly_temp data) (of_int isotherm_default)).
  - rewrite (T eq_refl). split_ifs; cbn; tauto.
  - split_ifs; cbn; tauto.
Qed.

(** X9. With the isotherm [update_markers] uses (the default, 0) the
    colour lookup [KOPPEN_COLOURS[climate_type]] succeeds for every code
    the classifier can return except those whose third letter is d (Dsd,
    Dwd, Dfd): for these, and only these, it raises KeyError.  A valid
    record with code Dfd exists. *)
Theorem colour_lookup_fails_only_on_d :
  (forall data : DataFrame,
     let code := Koppen_climate_classification
                   (calculate_koppen_climate_from_normals
                      data isotherm_default) in
     (getitem colour_key_eqb KOPPEN_COLOURS (Some code) = Raise KeyError
      <-> letter 2 code = Some "d"%char)
     /\ (letter 2 code = Some "d"%char -> letter 0 code = Some "D"%char))
  /\ validb yakutsk = true
  /\ getitem colour_key_eqb KOPPEN_COLOURS
       (Some (Koppen_climate_classification
                (calculate_koppen_climate_from_normals
                   yakutsk isotherm_default)))
     = Raise KeyError.
Proof.
  split; [| split; reflexivity].
  intro data. cbv zeta.
  pose proof (default_code_cases data) as H. unfold koppen_codes_default in H.
  cbn [In] in H.
  repeat (destruct H as [<- | H]; [vm_compute; intuition congruence |]).
  contradiction.
Qed.

(** ** The columns the classifier reads *)

Section ReadsOnly.

Variable f : row -> row.
Hypothesis f_index : forall r, index (f r) = index r.
Hypothesis f_tavg : forall r, tavg (f r) = tavg r.
Hypothesis f_prcp : forall r, prcp (f r) = prcp r.

Lemma getcol_map_tavg (data : DataFrame) :
  getcol tavg (map f data) = getcol tavg data.
Proof.
  unfold getcol. rewrite map_map. apply map_ext. exact f_tavg.
Qed.

Lemma getcol_map_prcp (data : DataFrame) :
  getcol prcp (map f data) = getcol prcp data.
Proof.
  unfold getcol. rewrite map_map. apply map_ext. exact f_prcp.
Qed.

Lemma select_isin_map (data : DataFrame) (ms : list Z) :
  select_isin (map f data) ms = map f (select_isin data ms).
Proof.
  unfold select_isin. induction data as [| r data IH]; [reflexivity |].
  cbn [map filter]. rewrite f_index, IH.
  destruct (isin (index r) ms); reflexivity.
Qed.

Lemma season_months_map (data : DataFrame) :
  season_months (map f data) = season_months data.
Proof.
  unfold season_months, northern_summer_mean, northern_winter_mean.
  now rewrite !select_isin_map, !getcol_map_tavg.
Qed.

Lemma labels_map (data : DataFrame) (isotherm : Z) :
  labels (map f data) isotherm = labels data isotherm
  /\ prcp_threshold (map f data) = prcp_threshold data.
Proof.
  assert (Ethr : prcp_threshold (map f data) = prcp_threshold data).
  { unfold prcp_threshold, avg_monthly_temp, summer_prcp, winter_prcp,
      yearly_prcp, summer_data, winter_data, summer_months, winter_months.
    now rewrite season_months_map, !select_isin_map, !getcol_map_prcp,
      !getcol_map_tavg. }
  split; [| exact Ethr].
  unfold labels. rewrite Ethr.
  unfold max_monthly_temp, min_monthly_temp, avg_monthly_temp, yearly_prcp,
    driest_summer_month, wettest_summer_month, driest_winter_month,
    wettest_winter_month, summer_data, winter_data, summer_months,
    winter_months.
  now rewrite season_months_map, !select_isin_map, !getcol_map_prcp,
    !getcol_map_tavg.
Qed.

Lemma classifier_map (data : DataFrame) (isotherm : Z) :
  calculate_koppen_climate_from_normals (map f data) isotherm
  = calculate_koppen_climate_from_normals data isotherm.
Proof.
  destruct (labels_map data isotherm) as [EL Ethr].
  unfold calculate_koppen_climate_from_normals, climate_classification,
    primary_label, secondary_label, tertiary_label.
  rewrite EL, Ethr.
  unfold max_monthly_temp, min_monthly_temp, avg_monthly_temp, yearly_prcp.
  now rewrite !getcol_map_prcp, !getcol_map_tavg.
Qed.

Lemma has_full_data_map (data : DataFrame) :
  has_full_data (map f data) = has_full_data data.
Proof.
  unfold has_full_data. rewrite length_map. f_equal. f_equal.
  induction data as [| r data IH]; [reflexivity |].
  cbn [map existsb]. now rewrite f_tavg, f_prcp, IH.
Qed.

End ReadsOnly.

(** X10. The result depends on three columns only: the index, the average
    temperature and the precipitation.  Two frames that agree on these,
    row by row, get the same result, whatever their other columns hold;
    in particular the conversion of the sunshine column to hours that
    [update_markers] makes before classifying changes nothing. *)
Theorem classifier_reads_three_columns
    (data data' : DataFrame) (isotherm : Z) :
  map index data' = map index data ->
  map tavg data' = map tavg data ->
  map prcp data' = map prcp data ->
  calculate_koppen_climate_from_normals data' isotherm
  = calculate_koppen_climate_from_normals data isotherm
  /\ calculate_koppen_climate_from_normals (tsun_to_hours data) isotherm
     = calculate_koppen_climate_from_normals data isotherm.
Proof.
  intros Ei Et Ep. split.
  - set (strip := fun r => mkrow (index r) (tavg r) NaN NaN (prcp r) NaN).
    assert (E : map strip data' = map strip data).
    { revert data Ei Et Ep.
      induction data' as [| r' data' IH]; intros [| r data] Ei Et Ep;
        try discriminate; [reflexivity |].
      cbn [map] in *. injection Ei as Ei1 Ei2. injection Et as Et1 Et2.
      injection Ep as Ep1 Ep2.
      rewrite (IH data Ei2 Et2 Ep2). unfold strip.
      now rewrite Ei1, Et1, Ep1. }
    rewrite <- (classifier_map strip (fun _ => eq_refl) (fun _ => eq_refl)
                  (fun _ => eq_refl) data' isotherm).
    rewrite <- (classifier_map strip (fun _ => eq_refl) (fun _ => eq_refl)
                  (fun _ => eq_refl) data isotherm).
    now rewrite E.
  - unfold tsun_to_hours. apply classifier_map; reflexivity.
Qed.

Lemma classifier_reads_three_columns_witness :
  map index (tsun_to_hours yakutsk) = map index yakutsk
  /\ map tavg (tsun_to_hours yakutsk) = map tavg yakutsk
  /\ map prcp (tsun_to_hours yakutsk) = map prcp yakutsk
  /\ calculate_koppen_climate_from_normals (tsun_to_hours yakutsk) 0
     = calculate_koppen_climate_from_normals yakutsk 0
  /\ calculate_koppen_climate_from_normals (tsun_to_hours yakutsk) 0
     = calculate_koppen_climate_from_normals yakutsk 0.
Proof.
  split; [reflexivity |]. split; [reflexivity |]. split; [reflexivity |].
  apply (classifier_reads_three_columns yakutsk (tsun_to_hours yakutsk) 0);
    reflexivity.
Defined.


(** ** Dictionaries *)

Lemma dict_get_set_same {K V : Type} (eqb : K -> K -> bool)
    (d : list (K * V)) (k : K) (v : V) :
  eqb k k = true -> dict_get eqb (dict_set eqb d k v) k = Some v.
Proof.
  intro R. induction d as [| [k' v'] d IH]; cbn.
  - now rewrite R.
  - destruct (eqb k' k) eqn:E; cbn; rewrite E; [reflexivity | assumption].
Qed.

Lemma dict_get_set_other {V : Type} (d : list (string * V)) (k k' : string)
    (v : V) :
  k <> k' ->
  dict_get String.eqb (dict_set String.eqb d k v) k'
  = dict_get String.eqb d k'.
Proof.
  intro N. induction d as [| [k0 v0] d IH]; cbn.
  - destruct (String.eqb_spec k k'); [contradiction | reflexivity].
  - destruct (String.eqb_spec k0 k) as [-> | N0]; cbn.
    + destruct (String.eqb_spec k k'); [contradiction | reflexivity].
    + now rewrite IH.
Qed.

Lemma dict_mem_false {V : Type} (d : list (string * V)) (k : string) :
  dict_mem String.eqb d k = false <-> dict_get String.eqb d k = None.
Proof.
  unfold dict_mem. destruct (dict_get String.eqb d k); split; congruence.
Qed.

(** ** One pass of [update_markers] *)

Section UpdateMarkersFacts.

Variable fetch_normals : string -> option DataFrame.
Variable str_float : float -> string.

(** No step overwrites a marker, and each step that returns leaves its
    station with an entry: [None] exactly when the source had nothing. *)
Lemma update_marker_step
    (m : marker_dict) (d : data_dict) (s : Station)
    (m' : marker_dict) (d' : data_dict) (r : py unit) :
  update_marker fetch_normals str_float m d s = (m', d', r) ->
  (forall k v, dict_get String.eqb m k = Some v ->
               dict_get String.eqb m' k = Some v)
  /\ (forall k, k <> station_id s ->
                dict_get String.eqb m' k = dict_get String.eqb m k)
  /\ (r = Return tt ->
      dict_mem String.eqb m' (station_id s) = true
      /\ (dict_mem String.eqb m (station_id s) = false ->
          (dict_get String.eqb m' (station_id s) = Some None
           <-> fetch_normals (station_id s) = None))).
Proof.
  unfold update_marker.
  destruct (dict_mem String.eqb m (station_id s)) eqn:M.
  { intro E. injection E as <- <- <-.
    repeat split; auto; try discriminate. }
  assert (Keep : forall v k w,
             dict_get String.eqb m k = Some w ->
             dict_get String.eqb (dict_set String.eqb m (station_id s) v) k
             = Some w).
  { intros v k w Hk. rewrite dict_get_set_other; [assumption |].
    intros <-. apply dict_mem_false in M. congruence. }
  assert (Here : forall v,
             dict_mem String.eqb (dict_set String.eqb m (station_id s) v)
                      (station_id s) = true).
  { intro v. unfold dict_mem.
    now rewrite dict_get_set_same by apply String.eqb_refl. }
  destruct (fetch_normals (station_id s)) as [normals |].
  - cbn [getitem dict_get KOPPEN_COLOURS colour_key_eqb]. cbv zeta.
    destruct (has_full_data (tsun_to_hours normals)).
    + destruct (getitem colour_key_eqb KOPPEN_COLOURS _) as [colour | e];
        intro E; injection E as <- <- <-.
      * split; [apply Keep |].
        split; [intros k N; apply dict_get_set_other; congruence |].
        intros _. split; [apply Here |]. intros _.
        rewrite dict_get_set_same by apply String.eqb_refl.
        split; discriminate.
      * repeat split; auto; try discriminate.
    + intro E; injection E as <- <- <-.
      split; [apply Keep |].
      split; [intros k N; apply dict_get_set_other; congruence |].
      intros _. split; [apply Here |]. intros _.
      rewrite dict_get_set_same by apply String.eqb_refl.
      split; discriminate.
  - intro E; injection E as <- <- <-.
    split; [apply Keep |].
    split; [intros k N; apply dict_get_set_other; congruence |].
    intros _. split; [apply Here |]. intros _.
    rewrite dict_get_set_same by apply String.eqb_refl.
    split; reflexivity.
Qed.

Lemma update_markers_keeps
    (stations : list Station) :
  forall (m : marker_dict) (d : data_dict)
         (m' : marker_dict) (d' : data_dict) (r : py unit),
    update_markers fetch_normals str_float m d stations = (m', d', r) ->
    forall k v, dict_get String.eqb m k = Some v ->
                dict_get String.eqb m' k = Some v.
Proof.
  induction stations as [| s rest IH]; intros m d m' d' r E k v Hk.
  - cbn in E. injection E as <- <- <-. assumption.
  - cbn [update_markers] in E.
    destruct (update_marker fetch_normals str_float m d s)
      as [[m1 d1] r1] eqn:S.
    destruct (update_marker_step _ _ _ _ _ _ S) as (K1 & _).
    destruct r1 as [u | e].
    + eapply IH; [exact E | now apply K1].
    + injection E as <- <- <-. now apply K1.
Qed.

End UpdateMarkersFacts.


Section UpdateMarkersPass.

Variable fetch_normals : string -> option DataFrame.
Variable str_float : float -> string.

Lemma update_markers_covers (stations : list Station) :
  forall (m : marker_dict) (d : data_dict)
         (m' : marker_dict) (d' : data_dict),
    update_markers fetch_normals str_float m d stations
    = (m', d', Return tt) ->
    forall s, In s stations ->
      dict_mem String.eqb m' (station_id s) = true
      /\ (dict_mem String.eqb m (station_id s) = false ->
          (dict_get String.eqb m' (station_id s) = Some None
           <-> fetch_normals (station_id s) = None)).
Proof.
  induction stations as [| s0 rest IH]; intros m d m' d' E s Hs;
    [contradiction |].
  cbn [update_markers] in E.
  destruct (update_marker fetch_normals str_float m d s0)
    as [[m1 d1] r1] eqn:S.
  destruct (update_marker_step _ _ _ _ _ _ _ _ S) as (K1 & O1 & R1).
  destruct r1 as [[] | e]; [| discriminate].
  destruct (R1 eq_refl) as [In1 None1].
  pose proof (update_markers_keeps _ _ rest _ _ _ _ _ E) as K2.
  destruct (string_dec (station_id s) (station_id s0)) as [Eid | Nid].
  - rewrite Eid. unfold dict_mem in In1 |- *.
    destruct (dict_get String.eqb m1 (station_id s0)) as [x |] eqn:G;
      [| discriminate].
    rewrite (K2 _ _ G). split; [reflexivity |].
    intro M. rewrite <- (None1 M). split; congruence.
  - destruct Hs as [-> | Hs]; [contradiction |].
    destruct (IH _ _ _ _ E s Hs) as [I2 N2]. split; [assumption |].
    intro M. apply N2. unfold dict_mem in *. now rewrite O1.
Qed.

(** X11. A pass that returns leaves every station of the list with an
    entry in the marker dictionary: [None] exactly for the new stations
    whose data could not be had.  Entries that were there are kept as they
    were, and a second pass over the same stations fetches nothing and
    changes nothing. *)
Theorem update_markers_fills_and_caches
    (m : marker_dict) (d : data_dict) (stations : list Station)
    (m' : marker_dict) (d' : data_dict) :
  update_markers fetch_normals str_float m d stations = (m', d', Return tt) ->
  (forall s, In s stations ->
     dict_mem String.eqb m' (station_id s) = true)
  /\ (forall s, In s stations ->
        dict_mem String.eqb m (station_id s) = false ->
        (dict_get String.eqb m' (station_id s) = Some None
         <-> fetch_normals (station_id s) = None))
  /\ (forall k v, dict_get String.eqb m k = Some v ->
                  dict_get String.eqb m' k = Some v)
  /\ (forall fetch_again str_again,
        update_markers fetch_again str_again m' d' stations
        = (m', d', Return tt)).
Proof.
  intro E.
  pose proof (update_markers_covers stations _ _ _ _ E) as C.
  split; [intros s Hs; now apply C |].
  split; [intros s Hs; now apply C |].
  split; [now apply (update_markers_keeps _ _ stations _ _ _ _ _ E) |].
  intros fetch_again str_again.
  assert (A : Forall (fun s => dict_mem String.eqb m' (station_id s) = true)
                     stations)
    by (apply Forall_forall; intros s Hs; now apply C).
  clear E C. induction A as [| s rest Hs _ IH]; [reflexivity |].
  cbn [update_markers]. unfold update_marker. now rewrite Hs.
Qed.

End UpdateMarkersPass.


Lemma update_markers_fills_and_caches_witness :
  let pass := update_markers example_fetch example_str_float [] []
                             example_stations in
  let m' := fst (fst pass) in
  let d' := snd (fst pass) in
  pass = (m', d', Return tt)
  /\ (forall s, In s example_stations ->
        dict_mem String.eqb m' (station_id s) = true)
  /\ (forall s, In s example_stations ->
        dict_mem String.eqb ([] : marker_dict) (station_id s) = false ->
        (dict_get String.eqb m' (station_id s) = Some None
         <-> example_fetch (station_id s) = None))
  /\ (forall k v, dict_get String.eqb ([] : marker_dict) k = Some v ->
                  dict_get String.eqb m' k = Some v)
  /\ (forall fetch_again str_again,
        update_markers fetch_again str_again m' d' example_stations
        = (m', d', Return tt)).
Proof.
  cbv zeta. split; [reflexivity |].
  apply (update_markers_fills_and_caches example_fetch example_str_float
           [] [] example_stations).
  reflexivity.
Defined.

(** ** Stations without a colour *)

(** X12. When a new station has complete normals whose code ends in d,
    the pass stops there with KeyError.  The station's normals are already
    stored under its coordinates, but it gets no marker: the marker
    dictionary is as before the station, so the next pass meets the same
    station again and stops again, and the stations after it in the list
    are not reached. *)
Theorem update_markers_stops_at_very_cold_station
    (fetch_normals : string -> option DataFrame)
    (str_float : float -> string)
    (m : marker_dict) (d : data_dict)
    (station : Station) (rest : list Station) (normals : DataFrame) :
  dict_mem String.eqb m (station_id station) = false ->
  fetch_normals (station_id station) = Some normals ->
  has_full_data normals = true ->
  letter 2 (Koppen_climate_classification
              (calculate_koppen_climate_from_normals
                 normals isotherm_default)) = Some "d"%char ->
  update_markers fetch_normals str_float m d (station :: rest)
  = (m,
     dict_set coordinates_eqb d (latitude station, longitude station)
              (tsun_to_hours normals),
     Raise KeyError).
Proof.
  intros M F Full D.
  assert (HF : has_full_data (tsun_to_hours normals) = true)
    by (unfold tsun_to_hours; now rewrite has_full_data_map).
  assert (HC : calculate_koppen_climate_from_normals
                 (tsun_to_hours normals) isotherm_default
               = calculate_koppen_climate_from_normals
                   normals isotherm_default)
    by (unfold tsun_to_hours; now apply classifier_map).
  cbn [update_markers]. unfold update_marker. rewrite M, F.
  cbn [getitem dict_get KOPPEN_COLOURS colour_key_eqb]. cbv zeta.
  rewrite HF, HC.
  pose proof (default_code_cases normals) as H.
  unfold koppen_codes_default in H. cbn [In] in H.
  repeat (destruct H as [H | H];
          [rewrite <- H in D |- *;
           first [discriminate D | reflexivity] |]).
  contradiction.
Qed.

Lemma update_markers_stops_at_very_cold_station_witness :
  dict_mem String.eqb ([] : marker_dict) (station_id yakutsk_station) = false
  /\ yakutsk_fetch (station_id yakutsk_station) = Some yakutsk
  /\ has_full_data yakutsk = true
  /\ letter 2 (Koppen_climate_classification
                 (calculate_koppen_climate_from_normals
                    yakutsk isotherm_default)) = Some "d"%char
  /\ update_markers yakutsk_fetch example_str_float [] []
                    (yakutsk_station :: example_stations)
     = ([],
        dict_set coordinates_eqb []
                 (latitude yakutsk_station, longitude yakutsk_station)
                 (tsun_to_hours yakutsk),
        Raise KeyError).
Proof.
  repeat (split; [reflexivity |]).
  apply (update_markers_stops_at_very_cold_station
           yakutsk_fetch example_str_float [] [] yakutsk_station
           example_stations yakutsk);
    reflexivity.
Defined.


(** ** The marker of a station with data *)

Lemma colour_table_entry (key : option string) (colour : string) :
  dict_get colour_key_eqb KOPPEN_COLOURS key = Some colour ->
  In (key, colour) KOPPEN_COLOURS.
Proof.
  generalize KOPPEN_COLOURS as table.
  induction table as [| [k c] table IH]; cbn; [discriminate |].
  destruct (colour_key_eqb k key) eqn:E.
  - intro H. injection H as <-. left.
    destruct k as [x |], key as [y |]; cbn in E; try discriminate;
      [apply String.eqb_eq in E; now subst | reflexivity].
  - intro H. right. now apply IH.
Qed.

Lemma coordinates_eqb_refl (c : Q * Q) : coordinates_eqb c c = true.
Proof.
  unfold coordinates_eqb. apply andb_true_iff.
  split; apply Qeq_bool_iff; reflexivity.
Qed.

(** X13. A new station with data gets a marker at its coordinates, and
    its normals, with the sunshine turned from minutes into hours and the
    other columns untouched, are stored under these coordinates.  With
    incomplete normals the marker has the fallback colour #CCCCCC and no
    code in its popup; with complete normals whose code does not end in d
    the popup ends with the code and the colour is the table's colour for
    that code. *)
Theorem marker_of_new_station
    (fetch_normals : string -> option DataFrame)
    (str_float : float -> string)
    (m : marker_dict) (d : data_dict)
    (station : Station) (normals : DataFrame) :
  dict_mem String.eqb m (station_id station) = false ->
  fetch_normals (station_id station) = Some normals ->
  let code := Koppen_climate_classification
                (calculate_koppen_climate_from_normals
                   normals isotherm_default) in
  has_full_data normals = false \/ letter 2 code <> Some "d"%char ->
  let coordinates := (latitude station, longitude station) in
  let text := ("<b>" ++ station_name station ++ "</b><br>Elevation: "
               ++ str_float (elevation station) ++ "m")%string in
  exists marker d',
    update_marker fetch_normals str_float m d station
    = (dict_set String.eqb m (station_id station) (Some marker), d',
       Return tt)
    /\ location marker = coordinates
    /\ dict_get coordinates_eqb d' coordinates = Some (tsun_to_hours normals)
    /\ map tsun (tsun_to_hours normals)
       = map (fun r => fdiv (tsun r) (of_int 60)) normals
    /\ (has_full_data normals = false ->
        popup marker = text /\ background_color marker = "#CCCCCC"%string)
    /\ (has_full_data normals = true ->
        popup marker = (text ++ newline ++ "Köppen: " ++ code)%string
        /\ In (Some code, background_color marker) KOPPEN_COLOURS).
Proof.
  intros M F code Ok coordinates text.
  assert (HF : has_full_data (tsun_to_hours normals) = has_full_data normals)
    by (unfold tsun_to_hours; now rewrite has_full_data_map).
  assert (HC : calculate_koppen_climate_from_normals
                 (tsun_to_hours normals) isotherm_default
               = calculate_koppen_climate_from_normals
                   normals isotherm_default)
    by (unfold tsun_to_hours; now apply classifier_map).
  assert (HT : map tsun (tsun_to_hours normals)
               = map (fun r => fdiv (tsun r) (of_int 60)) normals)
    by (unfold tsun_to_hours; now rewrite map_map).
  assert (HN : getitem colour_key_eqb KOPPEN_COLOURS None
               = Return "#CCCCCC"%string) by reflexivity.
  unfold update_marker. rewrite M, F, HN. cbv zeta.
  rewrite HF, HC. fold code. fold coordinates. fold text.
  unfold getitem.
  destruct (has_full_data normals) eqn:Full.
  - destruct Ok as [Ok | Ok]; [discriminate |].
    destruct (dict_get colour_key_eqb KOPPEN_COLOURS (Some code))
      as [colour |] eqn:G.
    + eexists. eexists. split; [reflexivity |].
      split; [reflexivity |].
      split; [apply dict_get_set_same, coordinates_eqb_refl |].
      split; [exact HT |].
      split; [discriminate |]. intros _. split; [reflexivity |].
      now apply colour_table_entry.
    + exfalso. apply Ok.
      pose proof (default_code_cases normals) as H. fold code in H.
      unfold koppen_codes_default in H. cbn [In] in H.
      repeat (destruct H as [H | H];
              [rewrite <- H in G |- *;
               first [discriminate G | reflexivity] |]).
      contradiction.
  - eexists. eexists. split; [reflexivity |].
    split; [reflexivity |].
    split; [apply dict_get_set_same, coordinates_eqb_refl |].
    split; [exact HT |].
    split; [intros _; split; reflexivity | discriminate].
Qed.

Lemma marker_of_new_station_witness :
  let station := mkStation "10338" "Hannover" "10338" (Some 55) 52.46 9.68 in
  let code := Koppen_climate_classification
                (calculate_koppen_climate_from_normals
                   continental_north isotherm_default) in
  let coordinates := (latitude station, longitude station) in
  let text := ("<b>" ++ station_name station ++ "</b><br>Elevation: "
               ++ example_str_float (elevation station) ++ "m")%string in
  dict_mem String.eqb ([] : marker_dict) (station_id station) = false
  /\ example_fetch (station_id station) = Some continental_north
  /\ (has_full_data continental_north = false
      \/ letter 2 code <> Some "d"%char)
  /\ exists marker d',
       update_marker example_fetch example_str_float [] [] station
       = (dict_set String.eqb [] (station_id station) (Some marker), d',
          Return tt)
       /\ location marker = coordinates
       /\ dict_get coordinates_eqb d' coordinates
          = Some (tsun_to_hours continental_north)
       /\ map tsun (tsun_to_hours continental_north)
          = map (fun r => fdiv (tsun r) (of_int 60)) continental_north
       /\ (has_full_data continental_north = false ->
           popup marker = text
           /\ background_color marker = "#CCCCCC"%string)
       /\ (has_full_data continental_north = true ->
           popup marker = (text ++ newline ++ "Köppen: " ++ code)%string
           /\ In (Some code, background_color marker) KOPPEN_COLOURS).
Proof.
  cbv zeta. split; [reflexivity |]. split; [reflexivity |].
  split; [right; intro H; vm_compute in H; discriminate H |].
  apply (marker_of_new_station example_fetch example_str_float [] []
           (mkStation "10338" "Hannover" "10338" (Some 55) 52.46 9.68)
           continental_north eq_refl eq_refl).
  right. intro H. vm_compute in H. discriminate H.
Defined.


(** * Monthly data as a normal *)

Lemma month_of_in_year (t : Z) : In (month_of t) months.
Proof.
  unfold month_of. pose proof (Z.mod_pos_bound t 12 ltac:(lia)) as B.
  assert (C : (t mod 12 = 0 \/ t mod 12 = 1 \/ t mod 12 = 2 \/ t mod 12 = 3
               \/ t mod 12 = 4 \/ t mod 12 = 5 \/ t mod 12 = 6
               \/ t mod 12 = 7 \/ t mod 12 = 8 \/ t mod 12 = 9
               \/ t mod 12 = 10 \/ t mod 12 = 11)%Z) by lia.
  repeat (destruct C as [C | C]; [rewrite C; simpl; tauto |]).
  rewrite C; simpl; tauto.
Qed.

Lemma isin_filter (p : Z -> bool) (x : Z) (l : list Z) :
  isin x (filter p l) = true -> isin x l = true.
Proof.
  unfold isin. rewrite !existsb_exists. intros (y & Hy & E).
  apply filter_In in Hy. exists y. tauto.
Qed.

Lemma nodupb_filter (p : Z -> bool) (l : list Z) :
  nodupb l = true -> nodupb (filter p l) = true.
Proof.
  induction l as [| x l IH]; [reflexivity |].
  cbn [nodupb filter]. rewrite andb_true_iff, negb_true_iff.
  intros [Hx Hl]. destruct (p x); [| now apply IH].
  cbn [nodupb]. apply andb_true_iff. split; [| now apply IH].
  apply negb_true_iff. destruct (isin x (filter p l)) eqn:E; [| reflexivity].
  apply isin_filter in E. congruence.
Qed.

Lemma filter_all (A : Type) (p : A -> bool) (l : list A) :
  List.length (filter p l) = List.length l -> forall x, In x l -> p x = true.
Proof.
  induction l as [| a l IH]; [intros _ x [] |].
  cbn [filter]. destruct (p a) eqn:Pa; cbn [List.length].
  - intros E x [<- | Hx]; [assumption |]. apply IH; [lia | assumption].
  - intro E. pose proof (filter_length_le p l). lia.
Qed.

Lemma filter_none_dropped (A : Type) (p : A -> bool) (l : list A) :
  (forall x, In x l -> p x = true) -> filter p l = l.
Proof.
  induction l as [| a l IH]; intro H; [reflexivity |].
  cbn [filter]. rewrite (H a (or_introl eq_refl)).
  f_equal. apply IH. intros x Hx. apply H. now right.
Qed.

Lemma series_mean_present (s : list float) :
  isna (series_mean s) = false <-> exists x, In (Some x) s.
Proof.
  unfold series_mean.
  induction s as [| [x |] s IH]; cbn [dropna].
  - split; [discriminate | intros (x & [])].
  - split; [intros _; exists x; now left | reflexivity].
  - rewrite IH. split; intros (x & Hx); exists x;
      [now right | destruct Hx as [Hx | Hx]; [discriminate | assumption]].
Qed.

Lemma groupby_index (monthly : DataFrame) :
  map index (groupby_month_mean monthly) = group_keys monthly.
Proof.
  unfold groupby_month_mean. rewrite map_map. apply map_id.
Qed.

Lemma groupby_month_indexed (monthly : DataFrame) :
  month_indexedb (groupby_month_mean monthly) = true.
Proof.
  unfold month_indexedb. apply andb_true_iff. split.
  - apply forallb_forall. intros r Hr.
    unfold groupby_month_mean in Hr. apply in_map_iff in Hr.
    destruct Hr as (m & <- & Hm). apply filter_In in Hm. destruct Hm as [Hm _].
    unfold in_year. cbn [group_mean index]. simpl in Hm.
    apply andb_true_iff. rewrite !Z.leb_le. lia.
  - rewrite groupby_index. unfold group_keys. now apply nodupb_filter.
Qed.


Lemma group_cell_present (col : row -> float) (monthly : DataFrame) (m : Z) :
  isna (series_mean (getcol col (group_rows monthly m))) = false
  <-> exists r x, In r monthly /\ month_of (index r) = m /\ col r = Some x.
Proof.
  rewrite series_mean_present. unfold getcol, group_rows. split.
  - intros (x & Hx). apply in_map_iff in Hx. destruct Hx as (r & Er & Hr).
    apply filter_In in Hr. destruct Hr as [Hr Hm].
    exists r, x. repeat split; [assumption | now apply Z.eqb_eq | assumption].
  - intros (r & x & Hr & Hm & Er). exists x. apply in_map_iff.
    exists r. split; [assumption |]. apply filter_In.
    split; [assumption | now apply Z.eqb_eq].
Qed.

Lemma group_keys_full (monthly : DataFrame) :
  List.length (group_keys monthly) = 12%nat
  <-> forall m, In m months -> exists r, In r monthly /\ month_of (index r) = m.
Proof.
  unfold group_keys. split.
  - intros L m Hm.
    pose proof (filter_all _ _ months L m Hm) as E.
    apply existsb_exists in E. destruct E as (r & Hr & E).
    exists r. split; [assumption | now apply Z.eqb_eq].
  - intro H. rewrite filter_none_dropped; [reflexivity |].
    intros m Hm. destruct (H m Hm) as (r & Hr & E).
    apply existsb_exists. exists r. split; [assumption | now apply Z.eqb_eq].
Qed.

(** X14. The frame that [get_monthly_as_normal] builds from monthly data
    is indexed by distinct months of the year, in ascending order.  It
    passes the completeness guard of [update_markers] exactly when every
    calendar month has, somewhere in the monthly data, an average
    temperature and a precipitation value; it is then a valid record. *)
Theorem monthly_normal_is_complete_iff (monthly normals : DataFrame) :
  get_monthly_as_normal monthly = Some normals ->
  month_indexedb normals = true
  /\ map index normals = group_keys monthly
  /\ (has_full_data normals = true
      <-> forall m, In m months ->
            (exists r t, In r monthly /\ month_of (index r) = m
                         /\ tavg r = Some t)
            /\ (exists r p, In r monthly /\ month_of (index r) = m
                            /\ prcp r = Some p))
  /\ (has_full_data normals = true -> validb normals = true).
Proof.
  intro G. assert (E : normals = groupby_month_mean monthly).
  { destruct monthly; [discriminate |]. now injection G as <-. }
  subst normals. clear G.
  pose proof (groupby_month_indexed monthly) as MI.
  split; [exact MI |]. split; [apply groupby_index |].
  split; [| now apply full_data_validb].
  unfold has_full_data. rewrite andb_true_iff, negb_true_iff, Z.eqb_eq.
  split.
  - intros [NoNa Len] m Hm.
    assert (L : List.length (group_keys monthly) = 12%nat).
    { rewrite <- groupby_index, length_map. lia. }
    assert (K : group_keys monthly = months).
    { unfold group_keys. apply filter_none_dropped.
      now apply filter_all. }
    assert (Hr : In (group_mean monthly m) (groupby_month_mean monthly)).
    { unfold groupby_month_mean. rewrite K. now apply in_map. }
    assert (P : isna (tavg (group_mean monthly m)) = false
                /\ isna (prcp (group_mean monthly m)) = false).
    { apply orb_false_iff.
      destruct (isna (tavg (group_mean monthly m))
                || isna (prcp (group_mean monthly m))) eqn:X;
        [| reflexivity].
      assert (Y : existsb (fun r => isna (tavg r) || isna (prcp r))
                          (groupby_month_mean monthly) = true)
        by (apply existsb_exists; eauto).
      congruence. }
    destruct P as [Pt Pp]. cbn [group_mean tavg prcp] in Pt, Pp.
    split; [now apply (group_cell_present tavg)
           | now apply (group_cell_present prcp)].
  - intro H. split.
    + destruct (existsb _ (groupby_month_mean monthly)) eqn:X;
        [| reflexivity].
      apply existsb_exists in X. destruct X as (r & Hr & Na).
      unfold groupby_month_mean in Hr. apply in_map_iff in Hr.
      destruct Hr as (m & <- & Hm). apply filter_In in Hm.
      destruct Hm as [Hm _]. destruct (H m Hm) as [Ht Hp].
      apply (group_cell_present tavg) in Ht.
      apply (group_cell_present prcp) in Hp.
      cbn [group_mean tavg prcp] in Na. rewrite Ht, Hp in Na. discriminate.
    + unfold groupby_month_mean. rewrite length_map.
      assert (L : List.length (group_keys monthly) = 12%nat).
      { apply group_keys_full. intros m Hm. destruct (H m Hm) as [Ht _].
        destruct Ht as (r & _ & Hr & Em & _). eauto. }
      rewrite L. reflexivity.
Qed.

Lemma monthly_normal_is_complete_iff_witness :
  get_monthly_as_normal two_years = Some (groupby_month_mean two_years)
  /\ month_indexedb (groupby_month_mean two_years) = true
  /\ map index (groupby_month_mean two_years) = group_keys two_years
  /\ (has_full_data (groupby_month_mean two_years) = true
      <-> forall m, In m months ->
            (exists r t, In r two_years /\ month_of (index r) = m
                         /\ tavg r = Some t)
            /\ (exists r p, In r two_years /\ month_of (index r) = m
                            /\ prcp r = Some p))
  /\ (has_full_data (groupby_month_mean two_years) = true ->
      validb (groupby_month_mean two_years) = true).
Proof.
  split; [reflexivity |].
  apply (monthly_normal_is_complete_iff two_years). reflexivity.
Defined.

Example two_years_classified :
  has_full_data (groupby_month_mean two_years) = true
  /\ map prcp (groupby_month_mean two_years) = repeat (Some (90 # 2)) 12
  /\ update_markers_koppen (groupby_month_mean two_years) = Some "Dfa"%string.
Proof. repeat split; reflexivity. Qed.


(** * The latest normal *)

Lemma last_default (l : list Z) (d d' : Z) : l <> [] -> last l d = last l d'.
Proof.
  induction l as [| a l IH]; [congruence |]. intros _.
  destruct l as [| b l]; [reflexivity |].
  change (last (b :: l) d = last (b :: l) d'). apply IH. discriminate.
Qed.

Lemma last_cons (a x : Z) (t : list Z) : last (a :: t) x = last t a.
Proof.
  destruct t as [| b t]; [reflexivity |].
  change (last (b :: t) x = last (b :: t) a). apply last_default. discriminate.
Qed.

Lemma last_in (t : list Z) : forall x, In (last t x) (x :: t).
Proof.
  induction t as [| a t IH]; intro x; [now left |].
  rewrite last_cons. right. apply IH.
Qed.

Lemma last_is_greatest (t : list Z) :
  forall x, increasingb (x :: t) = true ->
            forall y, In y (x :: t) -> (y <= last t x)%Z.
Proof.
  induction t as [| a t IH]; intros x Inc y Hy.
  - destruct Hy as [<- | []]. apply Z.le_refl.
  - cbn [increasingb] in Inc. apply andb_true_iff in Inc.
    destruct Inc as [Lt Inc]. apply Z.ltb_lt in Lt.
    rewrite last_cons. destruct Hy as [<- | Hy].
    + pose proof (IH a Inc a (or_introl eq_refl)). lia.
    + now apply IH.
Qed.

Lemma isin_In (x : Z) (l : list Z) : isin x l = true <-> In x l.
Proof.
  unfold isin. rewrite existsb_exists. split.
  - intros (y & Hy & E). apply Z.eqb_eq in E. now subst.
  - intro H. exists x. split; [assumption | apply Z.eqb_refl].
Qed.

Lemma get_latest_normal_nonempty (data : NormalsFrame) :
  period_rows data <> [] ->
  get_latest_normal_by_station_id data
  = bind (last_level (level_start data)) (fun start_year =>
    bind (last_level (level_end data)) (fun end_year =>
    bind (loc_period data start_year end_year) (fun latest =>
    Return (Some latest)))).
Proof.
  unfold get_latest_normal_by_station_id, loc_period.
  destruct (period_rows data); [congruence | reflexivity].
Qed.

(** X15. When every period of a station's normals spans the same number
    of years (and the index is a proper index whose level values all
    occur), [get_latest_normal_by_station_id] returns the rows of the
    period that starts last, and there is at least one. *)
Theorem latest_normal_of_equal_spans (data : NormalsFrame) (span : Z) :
  multiindexb data = true -> levels_usedb data = true ->
  same_spanb span data = true -> period_rows data <> [] ->
  exists latest_start latest,
    get_latest_normal_by_station_id data = Return (Some latest)
    /\ latest <> []
    /\ (forall x, In x (period_rows data) -> (fst (fst x) <= latest_start)%Z)
    /\ latest = map snd (filter (fun x => (fst (fst x) =? latest_start)%Z)
                                (period_rows data)).
Proof.
  unfold multiindexb, levels_usedb, same_spanb.
  rewrite !andb_true_iff, !forallb_forall.
  intros [[IncS IncE] Lab] [UsedS UsedE] Span NE.
  rewrite (get_latest_normal_nonempty data NE).
  destruct (period_rows data) as [| x0 rows0] eqn:R; [congruence |].
  rewrite <- R in *. clear NE.
  assert (Hx0 : In x0 (period_rows data)) by (rewrite R; now left).
  destruct (level_start data) as [| s0 ts] eqn:LS.
  { specialize (Lab x0 Hx0). apply andb_true_iff in Lab.
    destruct Lab as [L _]. discriminate. }
  destruct (level_end data) as [| e0 te] eqn:LE.
  { specialize (Lab x0 Hx0). apply andb_true_iff in Lab.
    destruct Lab as [_ L]. discriminate. }
  cbn [last_level bind].
  set (s := last ts s0). set (e := last te e0).
  pose proof (last_in ts s0) as InS. fold s in InS.
  pose proof (last_in te e0) as InE. fold e in InE.
  pose proof (last_is_greatest ts s0 IncS) as MaxS. fold s in MaxS.
  pose proof (last_is_greatest te e0 IncE) as MaxE. fold e in MaxE.
  assert (Start : forall x, In x (period_rows data) -> (fst (fst x) <= s)%Z).
  { intros x Hx. apply MaxS. specialize (Lab x Hx).
    apply andb_true_iff in Lab. now apply isin_In. }
  assert (End : forall x, In x (period_rows data) -> (snd (fst x) <= e)%Z).
  { intros x Hx. apply MaxE. specialize (Lab x Hx).
    apply andb_true_iff in Lab. now apply isin_In. }
  pose proof (UsedS s InS) as Us. apply existsb_exists in Us.
  destruct Us as (xs & Hxs & Exs). apply Z.eqb_eq in Exs.
  pose proof (UsedE e InE) as Ue. apply existsb_exists in Ue.
  destruct Ue as (xe & Hxe & Exe). apply Z.eqb_eq in Exe.
  pose proof (Span xs Hxs) as Sxs. apply Z.eqb_eq in Sxs.
  pose proof (Span xe Hxe) as Sxe. apply Z.eqb_eq in Sxe.
  assert (Ee : e = (s + span)%Z).
  { pose proof (Start xe Hxe). pose proof (End xs Hxs). lia. }
  assert (F : filter (in_period s e) (period_rows data)
              = filter (fun x => (fst (fst x) =? s)%Z) (period_rows data)).
  { apply filter_ext_in. intros x Hx. unfold in_period.
    pose proof (Span x Hx) as Sx. apply Z.eqb_eq in Sx.
    destruct (Z.eqb_spec (fst (fst x)) s) as [Es | Ns]; [| reflexivity].
    cbn. apply Z.eqb_eq. lia. }
  assert (Hin : In xs (filter (in_period s e) (period_rows data))).
  { apply filter_In. split; [assumption |]. unfold in_period.
    apply andb_true_iff. rewrite !Z.eqb_eq. lia. }
  unfold loc_period. rewrite F in *.
  destruct (filter (fun x => (fst (fst x) =? s)%Z) (period_rows data))
    as [| y ys] eqn:Fy; [contradiction |].
  exists s, (map snd (y :: ys)). cbn [bind].
  split; [reflexivity |]. split; [discriminate |].
  split; [exact Start | now rewrite Fy].
Qed.

Lemma latest_normal_of_equal_spans_witness :
  multiindexb two_periods = true /\ levels_usedb two_periods = true
  /\ same_spanb 29 two_periods = true /\ period_rows two_periods <> []
  /\ exists latest_start latest,
       get_latest_normal_by_station_id two_periods = Return (Some latest)
       /\ latest <> []
       /\ (forall x, In x (period_rows two_periods) ->
                     (fst (fst x) <= latest_start)%Z)
       /\ latest = map snd (filter (fun x => (fst (fst x) =? latest_start)%Z)
                                   (period_rows two_periods)).
Proof.
  repeat (split; [reflexivity || discriminate |]).
  apply (latest_normal_of_equal_spans two_periods 29);
    reflexivity || discriminate.
Defined.

Example latest_of_two_periods :
  get_latest_normal_by_station_id two_periods = Return (Some missing_july)
  /\ get_latest_normal_by_station_id uneven_periods = Raise KeyError
  /\ get_latest_normal_by_station_id (mkNormals [] [] []) = Return None.
Proof. repeat split; reflexivity. Qed.


(** * The classification of a location *)

Lemma get_latest_normal_outcomes (data : NormalsFrame) :
  period_rows data <> [] ->
  get_latest_normal_by_station_id data = Raise IndexError
  \/ get_latest_normal_by_station_id data = Raise KeyError
  \/ exists latest,
       get_latest_normal_by_station_id data = Return (Some latest).
Proof.
  intro NE. rewrite (get_latest_normal_nonempty data NE).
  unfold last_level, loc_period.
  destruct (level_start data); [now left |].
  destruct (level_end data); [now left |]. cbn [bind].
  destruct (filter _ (period_rows data)); [right; now left |].
  right. right. eexists. reflexivity.
Qed.

Section NearbyFacts.

Variable fetch_normals_frame : string -> NormalsFrame.

Lemma has_normals_rows (station : Station) :
  has_normals fetch_normals_frame station = false
  <-> period_rows (fetch_normals_frame (station_id station)) = [].
Proof.
  unfold has_normals.
  destruct (period_rows (fetch_normals_frame (station_id station)));
    split; congruence.
Qed.

Lemma nearest_none (nearby : list Station) :
  nearest_with_normals fetch_normals_frame nearby = None
  <-> Forall (fun s => period_rows (fetch_normals_frame (station_id s)) = [])
             nearby.
Proof.
  induction nearby as [| s rest IH]; cbn [nearest_with_normals].
  - split; [constructor | reflexivity].
  - destruct (has_normals fetch_normals_frame s) eqn:H.
    + split; [discriminate |]. intro F. inversion F as [| ? ? E _]; subst.
      apply has_normals_rows in E. congruence.
    + rewrite IH. apply has_normals_rows in H. split.
      * now constructor.
      * intro F. now inversion F.
Qed.

Lemma nearest_some (nearby : list Station) (station : Station) :
  nearest_with_normals fetch_normals_frame nearby = Some station ->
  exists before after,
    nearby = before ++ station :: after
    /\ Forall (fun s => period_rows (fetch_normals_frame (station_id s)) = [])
              before
    /\ period_rows (fetch_normals_frame (station_id station)) <> [].
Proof.
  induction nearby as [| s rest IH]; cbn [nearest_with_normals];
    [discriminate |].
  destruct (has_normals fetch_normals_frame s) eqn:H.
  - intro E. injection E as ->. exists [], rest.
    split; [reflexivity |]. split; [constructor |].
    intro E. apply has_normals_rows in E. congruence.
  - intro E. destruct (IH E) as (before & after & -> & Fb & Ns).
    exists (s :: before), after. split; [reflexivity |].
    split; [| assumption]. constructor; [| assumption].
    now apply has_normals_rows.
Qed.

(** X16. [calculate_koppen_climate] raises ValueError exactly when none
    of the nearby stations has normals (in particular when there is no
    nearby station).  It never hands [None] to the classifier.  When it
    returns, the report is for the nearest station that has normals: it
    holds the classification of that station's latest normal, computed
    without any completeness check, and the station's name and WMO
    number. *)
Theorem calculate_koppen_climate_outcome
    (name : string) (nearby : list Station) (isotherm : Z) :
  let call :=
    calculate_koppen_climate fetch_normals_frame name nearby isotherm in
  ((exists message, call = Raise (ValueError message))
   <-> Forall (fun s => period_rows (fetch_normals_frame (station_id s)) = [])
              nearby)
  /\ call <> Raise TypeError
  /\ (forall report, call = Return report ->
      exists before station after latest,
        nearby = before ++ station :: after
        /\ Forall (fun s =>
                     period_rows (fetch_normals_frame (station_id s)) = [])
                  before
        /\ period_rows (fetch_normals_frame (station_id station)) <> []
        /\ get_latest_normal_by_station_id
             (fetch_normals_frame (station_id station))
           = Return (Some latest)
        /\ report
           = mkReport
               (calculate_koppen_climate_from_normals latest isotherm)
               name (wmo station) (station_name station)).
Proof.
  cbv zeta. unfold calculate_koppen_climate, get_latest_normal.
  destruct (nearest_with_normals fetch_normals_frame nearby)
    as [station |] eqn:N.
  - destruct (nearest_some nearby station N)
      as (before & after & En & Fb & NE).
    assert (NotAll : ~ Forall (fun s => period_rows
                                   (fetch_normals_frame (station_id s)) = [])
                       nearby).
    { intro F. apply nearest_none in F. congruence. }
    destruct (get_latest_normal_outcomes _ NE) as [E | [E | (latest & E)]];
      rewrite E; cbn [bind snd fst].
    + split; [split; [intros (msg & H); discriminate | tauto] |].
      split; [discriminate | discriminate].
    + split; [split; [intros (msg & H); discriminate | tauto] |].
      split; [discriminate | discriminate].
    + split; [split; [intros (msg & H); discriminate | tauto] |].
      split; [discriminate |].
      intros report H. injection H as <-.
      exists before, station, after, latest. now repeat split.
  - cbn [bind]. split; [| split; [discriminate | discriminate]].
    split; [intros _; now apply nearest_none | intros _; eexists; reflexivity].
Qed.

End NearbyFacts.

Lemma calculate_koppen_climate_outcome_witness :
  let call :=
    calculate_koppen_climate example_normals "Hildesheim" example_stations 0 in
  let report :=
    mkReport (calculate_koppen_climate_from_normals missing_july 0)
             "Hildesheim" "10338" "Hannover" in
  call = Return report
  /\ exists before station after latest,
       example_stations = before ++ station :: after
       /\ Forall (fun s => period_rows (example_normals (station_id s)) = [])
                 before
       /\ period_rows (example_normals (station_id station)) <> []
       /\ get_latest_normal_by_station_id
            (example_normals (station_id station))
          = Return (Some latest)
       /\ report
          = mkReport (calculate_koppen_climate_from_normals latest 0)
                     "Hildesheim" (wmo station) (station_name station).
Proof.
  cbv zeta. split; [reflexivity |].
  apply (proj2 (proj2 (calculate_koppen_climate_outcome
                         example_normals "Hildesheim" example_stations 0))).
  reflexivity.
Defined.

Example calculate_koppen_climate_unguarded :
  calculate_koppen_climate example_normals "Hildesheim" example_stations 0
  = Return (mkReport
              (calculate_koppen_climate_from_normals missing_july 0)
              "Hildesheim" "10338" "Hannover")
  /\ validb missing_july = false
  /\ calculate_koppen_climate example_normals "Nowhere" [] 0
     = Raise (ValueError
                "No nearby stations with available normals data found.").
Proof. repeat split; reflexivity. Qed.


(** * The readable frame *)

Lemma dropna_app (s t : list float) : dropna (s ++ t) = dropna s ++ dropna t.
Proof.
  induction s as [| [x |] s IH]; cbn [app dropna]; [reflexivity | |assumption].
  now rewrite IH.
Qed.

Lemma Qsum_snoc (l : list Q) (a : Q) : Qsum (l ++ [a]) == Qsum l + a.
Proof.
  unfold Qsum. induction l as [| x l IH]; cbn [app fold_right]; [ring |].
  rewrite IH. ring.
Qed.

Lemma total_counts_the_average (cells : list float) :
  let xs := dropna cells in
  let average := series_mean cells in
  let total := series_sum (cells ++ [average]) in
  (xs = [] -> average = NaN /\ total = Some 0)
  /\ (xs <> [] ->
      exists a t,
        average = Some a /\ total = Some t
        /\ a = Qsum xs / inject_Z (Z.of_nat (List.length xs))
        /\ t == Qsum xs + a).
Proof.
  cbv zeta. split.
  - intro E. unfold series_mean, series_sum. rewrite dropna_app, E.
    split; reflexivity.
  - intro NE. rewrite (series_mean_Some cells NE).
    eexists. eexists. split; [reflexivity |].
    unfold series_sum. rewrite dropna_app. cbn [dropna].
    split; [reflexivity |]. split; [reflexivity |]. apply Qsum_snoc.
Qed.



Example readable_total_of_precipitation :
  exists rows,
    make_climate_data_frame_readable all_25_100 = Return rows
    /\ map (fun r => (variable r, Average r, Total r)) rows
       = [ ("Max Temp (°C)", NaN, Some 0);
           ("Average Temp (°C)", Some (300 # 12), Some (3900 # 12));
           ("Min Temp (°C)", NaN, Some 0);
           ("Precip (mm)", Some (1200 # 12), Some (15600 # 12));
           ("Sunshine (hrs)", NaN, Some 0) ]%string
    /\ 15600 # 12 == 1300
    /\ Yearly_Precipitation
         (calculate_koppen_climate_from_normals all_25_100 0) = Some 1200.
Proof.
  eexists. split; [reflexivity |]. repeat split; reflexivity.
Qed.


(** * Rain hours *)

Lemma mask_sum_cons (b : bool) (m : list bool) :
  mask_sum (b :: m) = ((if b then 1 else 0) + mask_sum m)%Z.
Proof.
  unfold mask_sum. cbn [filter]. destruct b; cbn [List.length]; lia.
Qed.

Lemma rain_hours_le_hours (s : list float) (threshold : float) :
  (0 <= mask_sum (series_gt s threshold) <= count_notnull s)%Z
  /\ (count_notnull s <= Z.of_nat (List.length s))%Z.
Proof.
  unfold series_gt, count_notnull.
  induction s as [| v s IH]; [unfold mask_sum; simpl; lia |].
  cbn [map List.length]. rewrite !mask_sum_cons, Nat2Z.inj_succ.
  destruct v as [x |]; unfold fgt, cmp2 in *; cbn [isna negb].
  - destruct threshold as [c |]; [destruct (Qltb c x) |]; lia.
  - lia.
Qed.

Section RainHoursFacts.

Variable fetch_hourly : string -> list HourlyRow.

Lemma nearest_with_hourly_none (nearby : list Station) :
  nearest_with_hourly fetch_hourly nearby = None
  <-> Forall (fun s => fetch_hourly (station_id s) = []) nearby.
Proof.
  induction nearby as [| s rest IH]; cbn [nearest_with_hourly].
  - split; [constructor | reflexivity].
  - destruct (fetch_hourly (station_id s)) eqn:E.
    + rewrite IH. split; [now constructor | intro F; now inversion F].
    + split; [discriminate |]. intro F. inversion F. congruence.
Qed.

(** X18. [calculate_rain_hours] raises ValueError exactly when no nearby
    station has hourly data.  Otherwise the hours with rain are at most
    the hours with a precipitation value; the average of rain hours per
    day is missing (NaN) when no hour has a value and is otherwise a
    number between 0 and 24, equal to 24 * rain hours / hours; it is never
    infinite. *)
Theorem rain_hours_per_day_bounded
    (name : string) (nearby : list Station) (threshold : float) :
  let call := calculate_rain_hours fetch_hourly name nearby threshold in
  ((exists message, call = Raise (ValueError message))
   <-> Forall (fun s => fetch_hourly (station_id s) = []) nearby)
  /\ (forall report, call = Return report ->
      (0 <= Rain_Hours report <= Total_Hours report)%Z
      /\ Number_of_Days report * 24 == inject_Z (Total_Hours report)
      /\ (Total_Hours report = 0%Z -> Average_Rain_Hours_Day report = np_nan)
      /\ ((0 < Total_Hours report)%Z ->
          exists q,
            Average_Rain_Hours_Day report = np_finite q
            /\ 0 <= q /\ q <= 24
            /\ q * inject_Z (Total_Hours report)
               == 24 * inject_Z (Rain_Hours report))
      /\ Average_Rain_Hours_Day report <> np_inf
      /\ Average_Rain_Hours_Day report <> np_neg_inf).
Proof.
  cbv zeta. unfold calculate_rain_hours.
  destruct (nearest_with_hourly fetch_hourly nearby) as [station |] eqn:N.
  - split.
    + split; [intros (msg & H); discriminate |].
      intro F. apply nearest_with_hourly_none in F. congruence.
    + intros report H. injection H as <-.
      cbn [Rain_Hours Total_Hours Number_of_Days Average_Rain_Hours_Day].
      set (s := map hour_prcp (fetch_hourly (station_id station))).
      destruct (rain_hours_le_hours s threshold) as [[R0 RH] _].
      set (h := count_notnull s) in *.
      set (r := mask_sum (series_gt s threshold)) in *.
      clearbody h r. clear s N.
      assert (Qr0 : 0 <= inject_Z r)
        by (change 0 with (inject_Z 0); now rewrite <- Zle_Qle).
      assert (Qrh : inject_Z r <= inject_Z h) by now rewrite <- Zle_Qle.
      split; [lia |].
      split; [field |].
      unfold np_divide.
      destruct (Qeq_bool (inject_Z h / 24) 0) eqn:Z0.
      * apply Qeq_bool_iff in Z0.
        assert (Hh : inject_Z h == 0).
        { unfold Qdiv in Z0. change (/ 24) with (1 # 24) in Z0. lra. }
        assert (h0 : h = 0%Z).
        { change 0 with (inject_Z 0) in Hh. now apply inject_Z_injective. }
        assert (r0 : r = 0%Z) by lia. subst h r.
        split; [reflexivity |]. split; [intro; lia |].
        split; discriminate.
      * apply Qeq_bool_neq in Z0.
        assert (Pos : 0 < inject_Z h / 24).
        { unfold Qdiv in *. change (/ 24) with (1 # 24) in *.
          assert (0 <= inject_Z h) by lra.
          apply Qnot_le_lt. intro L. apply Z0. lra. }
        repeat split; try discriminate.
        -- intro E. subst h. exfalso. apply Z0. reflexivity.
        -- intros _. exists (inject_Z r / (inject_Z h / 24)).
           split; [reflexivity |].
           split; [apply Qle_shift_div_l; [assumption | lra] |].
           split.
           ++ apply Qle_shift_div_r; [assumption |].
              unfold Qdiv. change (/ 24) with (1 # 24). lra.
           ++ field. intro E. apply Z0. rewrite E. reflexivity.
  - split; [| intros report H; discriminate].
    split; [intros _; now apply nearest_with_hourly_none
           | intros _; eexists; reflexivity].
Qed.

End RainHoursFacts.

Lemma rain_hours_per_day_bounded_witness :
  let call := calculate_rain_hours example_hourly "Hildesheim"
                                   example_stations (Some 0) in
  exists report,
    call = Return report
    /\ (0 <= Rain_Hours report <= Total_Hours report)%Z
    /\ Number_of_Days report * 24 == inject_Z (Total_Hours report)
    /\ (Total_Hours report = 0%Z -> Average_Rain_Hours_Day report = np_nan)
    /\ ((0 < Total_Hours report)%Z ->
        exists q,
          Average_Rain_Hours_Day report = np_finite q
          /\ 0 <= q /\ q <= 24
          /\ q * inject_Z (Total_Hours report)
             == 24 * inject_Z (Rain_Hours report))
    /\ Average_Rain_Hours_Day report <> np_inf
    /\ Average_Rain_Hours_Day report <> np_neg_inf.
Proof.
  cbv zeta. eexists. split; [reflexivity |].
  apply (proj2 (rain_hours_per_day_bounded
                  example_hourly "Hildesheim" example_stations (Some 0))).
  reflexivity.
Defined.

Example rain_hours_example :
  exists report,
    calculate_rain_hours example_hourly "Hildesheim" example_stations (Some 0)
    = Return report
    /\ Total_Hours report = 3%Z /\ Rain_Hours report = 2%Z
    /\ exists q, Average_Rain_Hours_Day report = np_finite q /\ q == 16.
Proof.
  eexists. split; [reflexivity |]. repeat split.
  eexists. split; reflexivity.
Qed.


(** * The session dictionaries *)

(** X19. The data dictionary has the same key, stations-data, with and
    without a custom date range.  So the first run with a custom date
    range, which initialises the dictionaries of the new mode, replaces
    the data of the stations already loaded by an empty dictionary while
    their markers stay; back without a custom date range, looking up the
    data of any of these markers raises KeyError. *)
Theorem custom_range_empties_shared_data
    (session_state : session) (markers : marker_dict) (frames : data_dict) :
  dict_get String.eqb session_state STATIONS_KEY = Some (Markers markers) ->
  dict_get String.eqb session_state (snd (keys_to_use false))
  = Some (Frames frames) ->
  dict_mem String.eqb session_state CUSTOM_DATE_RANGE_STATIONS_KEY = false ->
  let after := initialise_dictionaries session_state true in
  snd (keys_to_use true) = snd (keys_to_use false)
  /\ dict_get String.eqb after STATIONS_KEY = Some (Markers markers)
  /\ dict_get String.eqb after CUSTOM_DATE_RANGE_STATIONS_KEY
     = Some (Markers [])
  /\ dict_get String.eqb after (snd (keys_to_use false)) = Some (Frames [])
  /\ (forall clicked, clicked_data_frame after false clicked = Raise KeyError)
  /\ initialise_dictionaries after false = after.
Proof.
  intros Hm Hd Hc after.
  assert (K : keys_to_use true
              = (CUSTOM_DATE_RANGE_STATIONS_KEY, "stations-data"%string))
    by reflexivity.
  assert (K' : keys_to_use false = (STATIONS_KEY, "stations-data"%string))
    by reflexivity.
  rewrite K' in *. cbn [snd fst] in *.
  assert (A : after
              = dict_set String.eqb
                  (dict_set String.eqb session_state
                            CUSTOM_DATE_RANGE_STATIONS_KEY (Markers []))
                  "stations-data"%string (Frames [])).
  { unfold after, initialise_dictionaries. rewrite K. cbn [fst snd].
    now rewrite Hc. }
  assert (G1 : dict_get String.eqb after STATIONS_KEY
               = Some (Markers markers)).
  { rewrite A. rewrite !dict_get_set_other by discriminate. assumption. }
  assert (G2 : dict_get String.eqb after "stations-data"%string
               = Some (Frames [])).
  { rewrite A. apply dict_get_set_same, String.eqb_refl. }
  split; [now rewrite K |]. split; [exact G1 |].
  split.
  { rewrite A. rewrite dict_get_set_other by discriminate.
    apply dict_get_set_same, String.eqb_refl. }
  split; [exact G2 |]. split.
  - intro clicked. unfold clicked_data_frame. rewrite K'. cbn [snd].
    now rewrite G2.
  - unfold initialise_dictionaries. rewrite K'. cbn [fst].
    unfold dict_mem. now rewrite G1.
Qed.

Lemma custom_range_empties_shared_data_witness :
  let markers := fst (fst (update_markers example_fetch example_str_float
                                          [] [] example_stations)) in
  let frames := snd (fst (update_markers example_fetch example_str_float
                                         [] [] example_stations)) in
  let after := initialise_dictionaries loaded_session true in
  dict_get String.eqb loaded_session STATIONS_KEY = Some (Markers markers)
  /\ dict_get String.eqb loaded_session (snd (keys_to_use false))
     = Some (Frames frames)
  /\ dict_mem String.eqb loaded_session CUSTOM_DATE_RANGE_STATIONS_KEY = false
  /\ snd (keys_to_use true) = snd (keys_to_use false)
  /\ dict_get String.eqb after STATIONS_KEY = Some (Markers markers)
  /\ dict_get String.eqb after CUSTOM_DATE_RANGE_STATIONS_KEY
     = Some (Markers [])
  /\ dict_get String.eqb after (snd (keys_to_use false)) = Some (Frames [])
  /\ (forall clicked, clicked_data_frame after false clicked = Raise KeyError)
  /\ initialise_dictionaries after false = after.
Proof.
  cbv zeta. split; [reflexivity |]. split; [reflexivity |].
  split; [reflexivity |].
  apply (custom_range_empties_shared_data loaded_session
           (fst (fst (update_markers example_fetch example_str_float
                                     [] [] example_stations)))
           (snd (fst (update_markers example_fetch example_str_float
                                     [] [] example_stations))));
    reflexivity.
Defined.

Example clicked_marker_before_and_after :
  clicked_data_frame loaded_session false (52.46, 9.68)
  = Return (tsun_to_hours continental_north)
  /\ clicked_data_frame (initialise_dictionaries loaded_session true) false
                        (52.46, 9.68)
     = Raise KeyError.
Proof. split; reflexivity. Qed.
